(** * Company Dashboard Tracker: the extraction pipeline

    A shallow embedding of [company_dashboard_tracker.py]: the list
    collector ([scrape_watchlist_companies], [get_all_watchlist_companies]),
    the record extractor ([scrape_company_data]), the batch orchestrator
    ([scrape_all_companies]) and the control flow of [main].

    The browser is modelled by what it answers: a page is the record of
    the answers to the selectors the program queries, and every query and
    every [.text] read may raise.  A text is the Rocq [string] of the
    bytes of its UTF-8 encoding. *)

From Stdlib Require Import String Ascii List Bool Arith NArith Lia DecimalString.
Import ListNotations.
Local Open Scope string_scope.
Local Open Scope list_scope.
Local Open Scope nat_scope.

(* ================================================================== *)
(** ** Text: the [str] operations the program uses *)

Module Text.

(** A text is the [string] of the bytes of its UTF-8 encoding.  The
    characters [str.isspace] accepts, and [str.strip] removes, are listed
    by the length of their encoding. *)

(** One byte: U+0009..U+000D, U+001C..U+001F and the space U+0020. *)
Definition is_space (c : ascii) : bool :=
  let n := nat_of_ascii c in
  ((9 <=? n) && (n <=? 13)) || ((28 <=? n) && (n <=? 32)).

(** Two bytes: U+0085 (C2 85) and U+00A0 (C2 A0). *)
Definition is_space2 (c1 c2 : ascii) : bool :=
  let n1 := nat_of_ascii c1 in
  let n2 := nat_of_ascii c2 in
  (n1 =? 194) && ((n2 =? 133) || (n2 =? 160)).

(** Three bytes: U+1680 (E1 9A 80), U+2000..U+200A (E2 80 80..8A),
    U+2028 and U+2029 (E2 80 A8, A9), U+202F (E2 80 AF),
    U+205F (E2 81 9F), U+3000 (E3 80 80). *)
Definition is_space3 (c1 c2 c3 : ascii) : bool :=
  let n1 := nat_of_ascii c1 in
  let n2 := nat_of_ascii c2 in
  let n3 := nat_of_ascii c3 in
  ((n1 =? 225) && (n2 =? 154) && (n3 =? 128))
  || ((n1 =? 226) && (n2 =? 128)
      && (((128 <=? n3) && (n3 <=? 138)) || (n3 =? 168) || (n3 =? 169)
          || (n3 =? 175)))
  || ((n1 =? 226) && (n2 =? 129) && (n3 =? 159))
  || ((n1 =? 227) && (n2 =? 128) && (n3 =? 128)).

Section Spaces.

(** The tests for a whitespace character of 1, 2 and 3 bytes at the
    head of a byte sequence, read forwards or backwards. *)
Variable sp1 : ascii -> bool.
Variable sp2 : ascii -> ascii -> bool.
Variable sp3 : ascii -> ascii -> ascii -> bool.

(** The sequence starts with a whitespace character. *)
Definition starts_with (l : list ascii) : bool :=
  match l with
  | [] => false
  | c1 :: l1 =>
      sp1 c1 ||
      match l1 with
      | [] => false
      | c2 :: l2 =>
          sp2 c1 c2 ||
          match l2 with
          | [] => false
          | c3 :: _ => sp3 c1 c2 c3
          end
      end
  end.

(** The sequence without the whitespace characters it starts with. *)
Fixpoint drop_spaces (l : list ascii) : list ascii :=
  match l with
  | [] => []
  | c1 :: l1 =>
      if sp1 c1 then drop_spaces l1 else
      match l1 with
      | [] => l
      | c2 :: l2 =>
          if sp2 c1 c2 then drop_spaces l2 else
          match l2 with
          | [] => l
          | c3 :: l3 => if sp3 c1 c2 c3 then drop_spaces l3 else l
          end
      end
  end.

End Spaces.

(** The tests on a sequence read backwards, last byte first. *)
Definition is_space2_rev (c2 c1 : ascii) : bool := is_space2 c1 c2.
Definition is_space3_rev (c3 c2 c1 : ascii) : bool := is_space3 c1 c2 c3.

(** [s.lstrip()] *)
Definition lstrip (s : string) : string :=
  string_of_list_ascii
    (drop_spaces is_space is_space2 is_space3 (list_ascii_of_string s)).

(** [s.rstrip()] *)
Definition rstrip (s : string) : string :=
  string_of_list_ascii
    (rev (drop_spaces is_space is_space2_rev is_space3_rev
            (rev (list_ascii_of_string s)))).

(** [s.strip()] *)
Definition strip (s : string) : string := rstrip (lstrip s).

(** [needle in hay] *)
Fixpoint str_in (needle hay : string) : bool :=
  prefix needle hay ||
  match hay with
  | EmptyString => false
  | String _ hay' => str_in needle hay'
  end.

Definition lower_ascii (c : ascii) : ascii :=
  let n := nat_of_ascii c in
  if (65 <=? n) && (n <=? 90) then ascii_of_nat (n + 32) else c.

(** [s.lower()], on the letters A..Z; the only use in the program is the
    test ['margin' in s.lower()]. *)
Fixpoint lower (s : string) : string :=
  match s with
  | EmptyString => EmptyString
  | String c s' => String (lower_ascii c) (lower s')
  end.

(** Truth value of a string: [if s:] *)
Definition truthy (s : string) : bool :=
  match s with EmptyString => false | _ => true end.

End Text.
Import Text.

(* ================================================================== *)
(** ** Results of operations that may raise *)

Inductive result (A : Type) : Type :=
| Ok (a : A)
| Raised.
Arguments Ok {A} a.
Arguments Raised {A}.

Definition rbind {A B} (r : result A) (k : A -> result B) : result B :=
  match r with
  | Ok a => k a
  | Raised => Raised
  end.

Declare Scope result_scope.
Delimit Scope result_scope with result.
Notation "x <- r ;; k" := (rbind r (fun x => k))
  (at level 61, r at next level, right associativity) : result_scope.

(* ================================================================== *)
(** ** The pages the driver serves *)

(** A [WebElement] the program reads: its [.text] and its [href]
    attribute ([get_attribute] gives [None] when there is none). *)
Record WebElement : Type := {
  text : result string;
  href : result (option string)
}.

(** A [tr]: [find_elements(By.TAG_NAME, "td")] and
    [find_element(By.CSS_SELECTOR, "td a")]. *)
Record Row : Type := {
  find_td : result (list WebElement);
  find_td_a : result WebElement
}.

(** A [table]: [find_element("thead th")] and [find_elements("tbody tr")]. *)
Record Table : Type := {
  find_thead_th : result WebElement;
  find_tbody_tr : result (list Row)
}.

(** [section#quarters]: [find_element("table")]. *)
Record Section : Type := {
  find_table : result Table
}.

(** The page loaded by [driver.get], as the answers to the selectors of
    the program. *)
Record Page : Type := {
  (* WebDriverWait(driver, 10).until(presence_of_element_located("table")) *)
  wait_table : result unit;
  (* find_elements("table tbody tr") *)
  table_tbody_tr : result (list Row);
  (* find_element("#top-ratios li:nth-child(1) .number") *)
  top_ratios_1 : result WebElement;
  (* find_element("#top-ratios li:nth-child(3) .number") *)
  top_ratios_3 : result WebElement;
  (* find_element("#top-ratios li:nth-child(5) .number") *)
  top_ratios_5 : result WebElement;
  (* find_element(".sub a") *)
  sub_a : result WebElement;
  (* find_elements("section.card table") *)
  section_card_table : result (list Table);
  (* find_element("section#quarters") *)
  section_quarters : result Section
}.

(** [elem.text.strip()] of an element that was looked up. *)
Definition text_strip (e : WebElement) : result string :=
  (t <- text e ;; Ok (strip t))%result.

(* ================================================================== *)
(** ** Python dictionaries with string keys

    Insertion ordered: assigning to a key already present replaces its
    value where it stands, a new key goes to the end. *)

Module Dict.

Definition dict (V : Type) : Type := list (string * V).

Definition empty {V} : dict V := [].

(** [d[k] = v] *)
Fixpoint set {V} (k : string) (v : V) (d : dict V) : dict V :=
  match d with
  | [] => [(k, v)]
  | (k', v') :: d' =>
      if String.eqb k k' then (k, v) :: d' else (k', v') :: set k v d'
  end.

(** [d.get(k)] *)
Fixpoint get {V} (k : string) (d : dict V) : option V :=
  match d with
  | [] => None
  | (k', v') :: d' => if String.eqb k k' then Some v' else get k d'
  end.

Definition keys {V} (d : dict V) : list string := map fst d.

End Dict.

(* ================================================================== *)
(** ** The data model *)

(** [{'name': ..., 'url': ...}] *)
Record Company : Type := {
  name : string;
  url : string
}.

(** [{'period': ..., 'sales': ..., 'profit': ...}] *)
Record Quarter : Type := {
  period : string;
  sales : string;
  profit : string
}.

(** The [data] dictionary of [scrape_company_data]. *)
Record FinancialRecord : Type := {
  data_name : string;
  data_url : string;
  current_price : option string;
  market_cap : option string;
  pe_ratio : option string;
  sector : option string;
  revenue_data : Dict.dict (list string);
  profit_data : Dict.dict (list string);
  margin_data : Dict.dict (list string);
  quarterly_data : list Quarter
}.

Definition set_current_price (v : string) (d : FinancialRecord) :=
  {| data_name := data_name d; data_url := data_url d;
     current_price := Some v; market_cap := market_cap d;
     pe_ratio := pe_ratio d; sector := sector d;
     revenue_data := revenue_data d; profit_data := profit_data d;
     margin_data := margin_data d; quarterly_data := quarterly_data d |}.

Definition set_market_cap (v : string) (d : FinancialRecord) :=
  {| data_name := data_name d; data_url := data_url d;
     current_price := current_price d; market_cap := Some v;
     pe_ratio := pe_ratio d; sector := sector d;
     revenue_data := revenue_data d; profit_data := profit_data d;
     margin_data := margin_data d; quarterly_data := quarterly_data d |}.

Definition set_pe_ratio (v : string) (d : FinancialRecord) :=
  {| data_name := data_name d; data_url := data_url d;
     current_price := current_price d; market_cap := market_cap d;
     pe_ratio := Some v; sector := sector d;
     revenue_data := revenue_data d; profit_data := profit_data d;
     margin_data := margin_data d; quarterly_data := quarterly_data d |}.

Definition set_sector (v : string) (d : FinancialRecord) :=
  {| data_name := data_name d; data_url := data_url d;
     current_price := current_price d; market_cap := market_cap d;
     pe_ratio := pe_ratio d; sector := Some v;
     revenue_data := revenue_data d; profit_data := profit_data d;
     margin_data := margin_data d; quarterly_data := quarterly_data d |}.

(** [data['revenue_data'][k] = v] *)
Definition set_revenue (k : string) (v : list string) (d : FinancialRecord) :=
  {| data_name := data_name d; data_url := data_url d;
     current_price := current_price d; market_cap := market_cap d;
     pe_ratio := pe_ratio d; sector := sector d;
     revenue_data := Dict.set k v (revenue_data d);
     profit_data := profit_data d;
     margin_data := margin_data d; quarterly_data := quarterly_data d |}.

(** [data['profit_data'][k] = v] *)
Definition set_profit (k : string) (v : list string) (d : FinancialRecord) :=
  {| data_name := data_name d; data_url := data_url d;
     current_price := current_price d; market_cap := market_cap d;
     pe_ratio := pe_ratio d; sector := sector d;
     revenue_data := revenue_data d;
     profit_data := Dict.set k v (profit_data d);
     margin_data := margin_data d; quarterly_data := quarterly_data d |}.

(** [data['margin_data'][k] = v] *)
Definition set_margin (k : string) (v : list string) (d : FinancialRecord) :=
  {| data_name := data_name d; data_url := data_url d;
     current_price := current_price d; market_cap := market_cap d;
     pe_ratio := pe_ratio d; sector := sector d;
     revenue_data := revenue_data d; profit_data := profit_data d;
     margin_data := Dict.set k v (margin_data d);
     quarterly_data := quarterly_data d |}.

(** [data['quarterly_data'].append(q)] *)
Definition append_quarter (q : Quarter) (d : FinancialRecord) :=
  {| data_name := data_name d; data_url := data_url d;
     current_price := current_price d; market_cap := market_cap d;
     pe_ratio := pe_ratio d; sector := sector d;
     revenue_data := revenue_data d; profit_data := profit_data d;
     margin_data := margin_data d;
     quarterly_data := quarterly_data d ++ [q] |}.

(** The literal [data = {...}] built after navigation. *)
Definition initial_data (company : Company) : FinancialRecord :=
  {| data_name := name company; data_url := url company;
     current_price := None; market_cap := None;
     pe_ratio := None; sector := None;
     revenue_data := Dict.empty; profit_data := Dict.empty;
     margin_data := Dict.empty; quarterly_data := [] |}.

(* ================================================================== *)
(** ** Statements that mutate [data] and may raise

    A raise leaves the mutations made so far in place, as in Python. *)

Definition M (A : Type) : Type := FinancialRecord -> result A * FinancialRecord.

Definition ret {A} (a : A) : M A := fun d => (Ok a, d).

Definition bind {A B} (m : M A) (k : A -> M B) : M B :=
  fun d =>
    match m d with
    | (Ok a, d') => k a d'
    | (Raised, d') => (Raised, d')
    end.

(** An expression that only reads the page. *)
Definition lift {A} (r : result A) : M A := fun d => (r, d).

Definition modify (f : FinancialRecord -> FinancialRecord) : M unit :=
  fun d => (Ok tt, f d).

(** [try: m  except: pass/continue/print] *)
Definition try_except (m : M unit) : M unit :=
  fun d => (Ok tt, snd (m d)).

Declare Scope stmt_scope.
Delimit Scope stmt_scope with stmt.
Notation "x <- m ;; k" := (bind m (fun x => k))
  (at level 61, m at next level, right associativity) : stmt_scope.
Notation "m ;; k" := (bind m (fun _ => k))
  (at level 61, right associativity) : stmt_scope.

(** [for x in l: body x] *)
Fixpoint for_each {A} (l : list A) (body : A -> M unit) : M unit :=
  match l with
  | [] => ret tt
  | x :: l' => (body x ;; for_each l' body)%stmt
  end.

(* ================================================================== *)
(** ** The driver and the log of what the run does with it *)

(** What the browser session answers to [driver.get(url)]. *)
Record Driver : Type := {
  driver_get : string -> result Page
}.

Inductive event : Type :=
| EvLogin                                       (* login_to_screener(driver) *)
| EvGet (u : string)                            (* driver.get(u) *)
| EvSaveSheets (all_data : list FinancialRecord)  (* save_to_google_sheets *)
| EvCreateExcel (all_data : list FinancialRecord) (* create_excel_dashboard *)
| EvQuit.                                       (* driver.quit() *)

Definition trace : Type := list event.

(* ================================================================== *)
(** ** SCRAPE WATCHLISTS *)

(** The body of the row loop of [scrape_watchlist_companies]: the company
    the row appends, if any. *)
Definition watchlist_row (row : Row) : option Company :=
  match (name_cell <- find_td_a row ;;
         company_name <- text_strip name_cell ;;
         company_url <- href name_cell ;;
         Ok (company_name, company_url))%result with
  | Ok (company_name, Some company_url) =>
      if truthy company_name && truthy company_url
      then Some {| name := company_name; url := company_url |}
      else None
  | Ok (_, None) => None          (* company_url is None *)
  | Raised => None                (* except: continue *)
  end.

Fixpoint watchlist_rows (rows : list Row) : list Company :=
  match rows with
  | [] => []
  | row :: rows' =>
      match watchlist_row row with
      | Some c => c :: watchlist_rows rows'
      | None => watchlist_rows rows'
      end
  end.

Definition scrape_watchlist_companies (driver : Driver) (watchlist_url : string)
    (tr : trace) : list Company * trace :=
  if negb (truthy watchlist_url) then ([], tr)
  else
    let tr := tr ++ [EvGet watchlist_url] in
    match (page <- driver_get driver watchlist_url ;;
           _ <- wait_table page ;;
           rows <- table_tbody_tr page ;;
           Ok (watchlist_rows rows))%result with
    | Ok companies => (companies, tr)
    | Raised => ([], tr)          (* except Exception: return [] *)
    end.

(** [x in seen] *)
Definition mem (x : string) (seen : list string) : bool :=
  existsb (String.eqb x) seen.

(** The inner loop of [get_all_watchlist_companies], on the pair
    [(all_companies, seen)]. *)
Fixpoint add_companies (companies : list Company)
    (st : list Company * list string) : list Company * list string :=
  match companies with
  | [] => st
  | company :: companies' =>
      let (all_companies, seen) := st in
      if negb (mem (name company) seen)
      then add_companies companies' (all_companies ++ [company], name company :: seen)
      else add_companies companies' st
  end.

(** The outer loop, over [WATCHLISTS.items()]. *)
Fixpoint collect_watchlists (driver : Driver) (watchlists : list (string * string))
    (st : list Company * list string) (tr : trace)
    : (list Company * list string) * trace :=
  match watchlists with
  | [] => (st, tr)
  | (_, u) :: watchlists' =>
      if truthy u then
        let (companies, tr') := scrape_watchlist_companies driver u tr in
        collect_watchlists driver watchlists' (add_companies companies st) tr'
      else collect_watchlists driver watchlists' st tr
  end.

Definition get_all_watchlist_companies (driver : Driver)
    (WATCHLISTS : list (string * string)) (tr : trace) : list Company * trace :=
  let (st, tr') := collect_watchlists driver WATCHLISTS ([], []) tr in
  (fst st, tr').

(* ================================================================== *)
(** ** SCRAPE COMPANY DATA *)

Local Open Scope stmt_scope.

(** [lst[i]], raising [IndexError] out of range. *)
Definition index {A} (l : list A) (i : nat) : result A :=
  match nth_error l i with
  | Some a => Ok a
  | None => Raised
  end.

(** Basic info from the top section: one [try] around the four fields. *)
Definition extract_basic_info (page : Page) : M unit :=
  try_except (
    (* Current Price *)
    price_elem <- lift (top_ratios_1 page) ;;
    v <- lift (text_strip price_elem) ;;
    modify (set_current_price v) ;;
    (* Market Cap *)
    mcap_elem <- lift (top_ratios_3 page) ;;
    v <- lift (text_strip mcap_elem) ;;
    modify (set_market_cap v) ;;
    (* P/E Ratio *)
    pe_elem <- lift (top_ratios_5 page) ;;
    v <- lift (text_strip pe_elem) ;;
    modify (set_pe_ratio v) ;;
    (* Sector *)
    sector_elem <- lift (sub_a page) ;;
    v <- lift (text_strip sector_elem) ;;
    modify (set_sector v)).

(** [for cell in cells: values.append(cell.text.strip())] *)
Fixpoint cell_values (cells : list WebElement) : result (list string) :=
  match cells with
  | [] => Ok []
  | cell :: cells' =>
      (v <- text_strip cell ;;
       values <- cell_values cells' ;;
       Ok (v :: values))%result
  end.

(** The series a row label is filed under. *)
Inductive series : Type := Revenue | Profit | Margin.

(** The [if]/[elif] chain on [metric_name]. *)
Definition classify (metric_name : string) : option series :=
  if str_in "Sales" metric_name || str_in "Revenue" metric_name then Some Revenue
  else if str_in "Operating Profit" metric_name || str_in "EBITDA" metric_name
  then Some Profit
  else if str_in "Net Profit" metric_name then Some Profit
  else if str_in "margin" (lower metric_name) then Some Margin
  else None.

(** Store based on metric name. *)
Definition store (metric_name : string) (values : list string) : M unit :=
  match classify metric_name with
  | Some Revenue => modify (set_revenue metric_name values)
  | Some Profit => modify (set_profit metric_name values)
  | Some Margin => modify (set_margin metric_name values)
  | None => ret tt
  end.

(** What the body of the row loop reads before it stores: nothing when
    the row has fewer than 2 cells ([continue]). *)
Definition read_row (row : Row) : result (option (string * list string)) :=
  (cells <- find_td row ;;
   if length cells <? 2 then Ok None
   else
     cell0 <- index cells 0 ;;
     metric_name <- text_strip cell0 ;;
     values <- cell_values (tl cells) ;;
     Ok (Some (metric_name, values)))%result.

Definition process_row (row : Row) : M unit :=
  try_except (
    r <- lift (read_row row) ;;
    match r with
    | None => ret tt
    | Some (metric_name, values) => store metric_name values
    end).

Definition process_table (table : Table) : M unit :=
  try_except (
    _ <- lift (th <- find_thead_th table ;; text_strip th)%result ;;
    rows <- lift (find_tbody_tr table) ;;
    for_each rows process_row).

(** 10-year data from tables. *)
Definition extract_table_data (page : Page) : M unit :=
  try_except (
    tables <- lift (section_card_table page) ;;
    for_each tables process_table).

(** What the body of the quarterly loop reads: nothing when the row has
    fewer than 3 cells. *)
Definition read_quarter (q_row : Row) : result (option Quarter) :=
  (cells <- find_td q_row ;;
   if 3 <=? length cells then
     c0 <- index cells 0 ;; p <- text_strip c0 ;;
     c1 <- index cells 1 ;; s <- text_strip c1 ;;
     c2 <- index cells 2 ;; f <- text_strip c2 ;;
     Ok (Some {| period := p; sales := s; profit := f |})
   else Ok None)%result.

Definition process_quarter (q_row : Row) : M unit :=
  try_except (
    r <- lift (read_quarter q_row) ;;
    match r with
    | Some quarter => modify (append_quarter quarter)
    | None => ret tt
    end).

(** Quarterly results: [for q_row in q_rows[:8]]. *)
Definition extract_quarterly (page : Page) : M unit :=
  try_except (
    quarterly_section <- lift (section_quarters page) ;;
    q_table <- lift (find_table quarterly_section) ;;
    q_rows <- lift (find_tbody_tr q_table) ;;
    for_each (firstn 8 q_rows) process_quarter).

(** The statements after [driver.get] and [time.sleep(2)]. *)
Definition extract_page (page : Page) : M unit :=
  extract_basic_info page ;;
  extract_table_data page ;;
  extract_quarterly page.

Definition scrape_company_data (driver : Driver) (company : Company)
    (tr : trace) : option FinancialRecord * trace :=
  let tr := tr ++ [EvGet (url company)] in
  match driver_get driver (url company) with
  | Raised => (None, tr)              (* except Exception: return None *)
  | Ok page =>
      match extract_page page (initial_data company) with
      | (Ok _, data) => (Some data, tr)
      | (Raised, _) => (None, tr)     (* except Exception: return None *)
      end
  end.

(** The loop of [scrape_all_companies], on [(all_data, success_count)]. *)
Fixpoint scrape_loop (driver : Driver) (companies : list Company)
    (st : list FinancialRecord * nat) (tr : trace)
    : (list FinancialRecord * nat) * trace :=
  match companies with
  | [] => (st, tr)
  | company :: companies' =>
      let (data, tr') := scrape_company_data driver company tr in
      match data with
      | Some d =>                     (* a dict with keys is true *)
          scrape_loop driver companies' (fst st ++ [d], S (snd st)) tr'
      | None => scrape_loop driver companies' st tr'
      end
  end.

Definition scrape_all_companies (driver : Driver) (companies : list Company)
    (tr : trace) : list FinancialRecord * trace :=
  let (st, tr') := scrape_loop driver companies ([], 0) tr in
  (fst st, tr').

(* ================================================================== *)
(** ** MAIN *)

(** The configuration read from the process environment and the outcomes
    of the collaborators [main] calls. *)
Record Env : Type := {
  SCREENER_USERNAME : option string;
  SCREENER_PASSWORD : option string;
  GOOGLE_SHEET_ID : option string;
  GOOGLE_CREDENTIALS_BASE64 : option string;
  WATCHLISTS : list (string * string);
  setup_selenium : result Driver;
  login_to_screener : bool
}.

(** [not v] for a value of [os.getenv]. *)
Definition unset (v : option string) : bool :=
  match v with
  | None => true
  | Some s => negb (truthy s)
  end.

(** [missing = [k for k, v in required_vars.items() if not v]] *)
Definition missing (e : Env) : list string :=
  map fst (filter (fun kv => unset (snd kv))
    [("SCREENER_USERNAME", SCREENER_USERNAME e);
     ("SCREENER_PASSWORD", SCREENER_PASSWORD e);
     ("GOOGLE_SHEET_ID", GOOGLE_SHEET_ID e);
     ("GOOGLE_CREDENTIALS_BASE64", GOOGLE_CREDENTIALS_BASE64 e)]).

(** The exit status of the process and the log of the run. *)
Definition main (e : Env) : nat * trace :=
  match missing e with
  | _ :: _ => (1, [])                                   (* sys.exit(1) *)
  | [] =>
      match setup_selenium e with
      | Raised => (1, [])          (* except: sys.exit(1); driver is None *)
      | Ok driver =>
          if negb (login_to_screener e)
          then (1, [EvLogin; EvQuit])   (* raise Exception("Login failed") *)
          else
            let (companies, tr) :=
              get_all_watchlist_companies driver (WATCHLISTS e) [EvLogin] in
            match companies with
            | [] => (0, tr ++ [EvQuit])                 (* sys.exit(0) *)
            | _ :: _ =>
                let (all_data, tr) := scrape_all_companies driver companies tr in
                match all_data with
                | [] => (1, tr ++ [EvQuit])             (* sys.exit(1) *)
                | _ :: _ =>
                    (0, tr ++ [EvSaveSheets all_data;
                               EvCreateExcel all_data; EvQuit])
                end
            end
      end
  end.

(* ================================================================== *)
(** ** LOGIN *)

(** What the browser answers during [login_to_screener]: loading the
    login page, waiting for the username field, typing into the two
    fields, clicking, and the address it is at afterwards. *)
Record LoginSession : Type := {
  get_login : result unit;
  wait_username : result unit;
  send_username : result unit;
  send_password : result unit;
  click_submit : result unit;
  current_url : result string
}.

(** The body of [login_to_screener]. *)
Definition login_to_screener_on (s : LoginSession) : bool :=
  match (_ <- get_login s ;;
         _ <- wait_username s ;;
         _ <- send_username s ;;
         _ <- send_password s ;;
         _ <- click_submit s ;;
         current_url s)%result with
  | Ok u => if str_in "login" (lower u) then false else true
  | Raised => false                 (* except Exception: return False *)
  end.

(* ================================================================== *)
(** ** GOOGLE SHEETS *)

(** A value of a sheet row: a text, or [None] for a field that is absent
    (the key is always in [data], so [data.get(key, '')] gives its
    value). *)
Definition value : Type := option string.

Definition sheet_headers : list value :=
  [Some "Company"; Some "Sector"; Some "Current Price";
   Some "Market Cap"; Some "P/E Ratio"; Some "URL"].

Definition sheet_row (data : FinancialRecord) : list value :=
  [Some (data_name data); sector data; current_price data;
   market_cap data; pe_ratio data; Some (data_url data)].

(** [rows = [headers]], then one [rows.append] per record. *)
Definition sheet_rows (all_data : list FinancialRecord) : list (list value) :=
  fold_left (fun rows data => rows ++ [sheet_row data]) all_data [sheet_headers].

(** The calls of [save_to_google_sheets] to the spreadsheet service. *)
Record SheetsService : Type := {
  get_google_credentials : result unit;
  build : result unit;
  clear_execute : result unit;
  update_execute : list (list value) -> result unit
}.

Inductive sheet_call : Type :=
| CallClear
| CallUpdate (rows : list (list value)).

(** The value returned and the calls made to the sheet, failed ones
    included. *)
Definition save_to_google_sheets (service : SheetsService)
    (all_data : list FinancialRecord) : bool * list sheet_call :=
  match (_ <- get_google_credentials service ;; build service)%result with
  | Raised => (false, [])
  | Ok _ =>
      let rows := sheet_rows all_data in
      match clear_execute service with
      | Raised => (false, [CallClear])
      | Ok _ =>
          match update_execute service rows with
          | Raised => (false, [CallClear; CallUpdate rows])
          | Ok _ => (true, [CallClear; CallUpdate rows])
          end
      end
  end.

(* ================================================================== *)
(** ** EXCEL GENERATION

    The cell values and the data validation that [create_excel_dashboard]
    puts into the workbook; fonts, fills, widths, the formulas of the
    dashboard and the file name are not modelled. *)

(** The characters openpyxl refuses in the text of a cell
    ([ILLEGAL_CHARACTERS_RE]): the control characters other than tab,
    line feed and carriage return. *)
Definition is_illegal (c : ascii) : bool :=
  let n := nat_of_ascii c in
  (n <=? 8) || ((11 <=? n) && (n <=? 12)) || ((14 <=? n) && (n <=? 31)).

Fixpoint has_illegal (s : string) : bool :=
  match s with
  | EmptyString => false
  | String c s' => is_illegal c || has_illegal s'
  end.

(** A byte 10xxxxxx, which continues the character before it. *)
Definition is_continuation (c : ascii) : bool :=
  let n := nat_of_ascii c in
  (128 <=? n) && (n <=? 191).

(** [len(v)], in characters. *)
Fixpoint char_length (s : string) : N :=
  match s with
  | EmptyString => 0%N
  | String c s' =>
      if is_continuation c then char_length s' else N.succ (char_length s')
  end.

(** [v[:n]]: the first [n] characters of the text. *)
Fixpoint take_chars (n : N) (s : string) : string :=
  match s with
  | EmptyString => EmptyString
  | String c s' =>
      if is_continuation c then String c (take_chars n s')
      else if N.eqb n 0 then EmptyString
      else String c (take_chars (N.pred n) s')
  end.

(** openpyxl's [Cell.check_string]: the text is cut at 32767 characters
    and refused ([IllegalCharacterError]) when what is left has an
    illegal character. *)
Definition check_string (v : string) : result string :=
  let v := take_chars 32767 v in
  if has_illegal v then Raised else Ok v.

Definition check_value (v : value) : result value :=
  match v with
  | None => Ok None
  | Some s => (s' <- check_string s ;; Ok (Some s'))%result
  end.

(** The values of the cells of a worksheet, by row and column. *)
Definition Worksheet : Type := nat -> nat -> value.

Definition empty_sheet : Worksheet := fun _ _ => None.

(** The sheet with [v] in the cell, left as it is when [v] is [None]. *)
Definition write (row col : nat) (v : value) (ws : Worksheet) : Worksheet :=
  match v with
  | None => ws
  | Some _ =>
      fun r c => if (r =? row) && (c =? col) then v else ws r c
  end.

(** [ws.cell(row, col, v)]: sets the value, checked, unless [v] is
    [None]. *)
Definition cell (row col : nat) (v : value) (ws : Worksheet)
    : result Worksheet :=
  (v' <- check_value v ;; Ok (write row col v' ws))%result.

(** [enumerate(l, start)] *)
Fixpoint enumerate {A} (start : nat) (l : list A) : list (nat * A) :=
  match l with
  | [] => []
  | x :: l' => (start, x) :: enumerate (S start) l'
  end.

(** [for x in l: body], on a state the body may fail to update. *)
Fixpoint for_each_r {A S} (l : list A) (body : A -> S -> result S) (s : S)
    : result S :=
  match l with
  | [] => Ok s
  | x :: l' => (s' <- body x s ;; for_each_r l' body s')%result
  end.

Definition excel_headers : list string :=
  ["Company"; "Sector"; "Price"; "Market Cap"; "P/E"; "URL"].

(** The six [data_sheet.cell] calls for one record. *)
Definition raw_data_row (row : nat) (data : FinancialRecord) (ws : Worksheet)
    : result Worksheet :=
  (ws <- cell row 1 (Some (data_name data)) ws ;;
   ws <- cell row 2 (sector data) ws ;;
   ws <- cell row 3 (current_price data) ws ;;
   ws <- cell row 4 (market_cap data) ws ;;
   ws <- cell row 5 (pe_ratio data) ws ;;
   cell row 6 (Some (data_url data)) ws)%result.

(** The Raw Data sheet: the header loop, then the data loop. *)
Definition raw_data_sheet (all_data : list FinancialRecord) : result Worksheet :=
  (ws <- for_each_r (enumerate 1 excel_headers)
           (fun ch ws => cell 1 (fst ch) (Some (snd ch)) ws) empty_sheet ;;
   for_each_r (enumerate 2 all_data)
     (fun rd ws => raw_data_row (fst rd) (snd rd) ws) ws)%result.

(** The Company List sheet. *)
Definition company_list_sheet (all_data : list FinancialRecord)
    : result Worksheet :=
  (ws <- cell 1 1 (Some "Company Name") empty_sheet ;;
   for_each_r (enumerate 2 all_data)
     (fun rd ws => cell (fst rd) 1 (Some (data_name (snd rd))) ws) ws)%result.

(** [dropdown_cell.value = all_data[0]['name'] if all_data else ""] *)
Definition dropdown_value (all_data : list FinancialRecord) : result string :=
  check_string match all_data with
               | data :: _ => data_name data
               | [] => ""
               end.

(** [str(n)] *)
Definition str_of_nat (n : nat) : string :=
  NilEmpty.string_of_uint (Nat.to_uint n).

(** [f"='Company List'!$A$2:$A${len(all_data)+1}"] *)
Definition validation_formula1 (all_data : list FinancialRecord) : string :=
  ("='Company List'!$A$2:$A$" ++ str_of_nat (length all_data + 1))%string.

(* ================================================================== *)
(** ** Vocabulary of the statements *)

(** The four scalar fields, in the order the program reads them. *)
Inductive scalar : Type := FPrice | FMarketCap | FPERatio | FSector.

Definition rank (F : scalar) : nat :=
  match F with
  | FPrice => 0
  | FMarketCap => 1
  | FPERatio => 2
  | FSector => 3
  end.

(** What reading field [F] off the page gives: the lookup of its element,
    then [.text.strip()]. *)
Definition scalar_read (page : Page) (F : scalar) : result string :=
  (e <- match F with
        | FPrice => top_ratios_1 page
        | FMarketCap => top_ratios_3 page
        | FPERatio => top_ratios_5 page
        | FSector => sub_a page
        end ;;
   text_strip e)%result.

Definition scalar_of (data : FinancialRecord) (F : scalar) : option string :=
  match F with
  | FPrice => current_price data
  | FMarketCap => market_cap data
  | FPERatio => pe_ratio data
  | FSector => sector data
  end.

Definition series_of (s : series) (data : FinancialRecord)
    : Dict.dict (list string) :=
  match s with
  | Revenue => revenue_data data
  | Profit => profit_data data
  | Margin => margin_data data
  end.

Definition series_eqb (s s' : series) : bool :=
  match s, s' with
  | Revenue, Revenue => true
  | Profit, Profit => true
  | Margin, Margin => true
  | _, _ => false
  end.

(** The classification rules as the ordered list of (test, series) pairs,
    tried from the top; the first test that holds decides. *)
Definition rules : list ((string -> bool) * series) :=
  [ (fun label => str_in "Sales" label || str_in "Revenue" label, Revenue);
    (fun label => str_in "Operating Profit" label || str_in "EBITDA" label, Profit);
    (fun label => str_in "Net Profit" label, Profit);
    (fun label => str_in "margin" (lower label), Margin) ].

Fixpoint first_match (rs : list ((string -> bool) * series)) (label : string)
    : option series :=
  match rs with
  | [] => None
  | (test, s) :: rs' => if test label then Some s else first_match rs' label
  end.

(** The companies one watchlist yields. *)
Definition yields (driver : Driver) (watchlist_url : string) : list Company :=
  fst (scrape_watchlist_companies driver watchlist_url []).

(** All the companies the watchlists yield, in list order then row order. *)
Definition listed (driver : Driver) (watchlists : list (string * string))
    : list Company :=
  flat_map (fun wl => yields driver (snd wl)) watchlists.

(** The first company of a sequence with the given name. *)
Definition first_named (n : string) (l : list Company) : option Company :=
  find (fun c => String.eqb (name c) n) l.

(** A sequence with, for each name, its first company only: the head
    stays, and companies named like it are dropped from what follows. *)
Fixpoint keep_first (l : list Company) : list Company :=
  match l with
  | [] => []
  | c :: l' =>
      c :: filter (fun d => negb (String.eqb (name d) (name c))) (keep_first l')
  end.

(** The record the extractor returns for a company. *)
Definition extracted (driver : Driver) (company : Company)
    : option FinancialRecord :=
  fst (scrape_company_data driver company []).

(** The extractor returned a record for the company. *)
Definition succeeded (driver : Driver) (company : Company) : bool :=
  match extracted driver company with
  | Some _ => true
  | None => false
  end.

Definition is_some {A} (o : option A) : bool :=
  match o with
  | Some _ => true
  | None => false
  end.

(** The records of the companies the extractor succeeds on, in order. *)
Definition records (driver : Driver) (companies : list Company)
    : list FinancialRecord :=
  flat_map (fun c => match extracted driver c with
                     | Some d => [d]
                     | None => []
                     end) companies.

(** The events of a log that call a publisher. *)
Definition is_publisher (ev : event) : bool :=
  match ev with
  | EvSaveSheets _ => true
  | EvCreateExcel _ => true
  | _ => false
  end.

(** The state a statement leaves behind. *)
Definition exec {A} (m : M A) (d : FinancialRecord) : FinancialRecord :=
  snd (m d).

(** A statement that does not touch the component [f] of [data]. *)
Definition preserves {X A} (f : FinancialRecord -> X) (m : M A) : Prop :=
  forall d, f (exec m d) = f d.

Definition all_scalars : list scalar := [FPrice; FMarketCap; FPERatio; FSector].

Definition is_raised {A} (r : result A) : bool :=
  match r with
  | Raised => true
  | Ok _ => false
  end.

(** The header or the row list of the table raises, or every row does. *)
Definition table_raises (table : Table) : bool :=
  match (th <- find_thead_th table ;; text_strip th)%result with
  | Raised => true
  | Ok _ =>
      match find_tbody_tr table with
      | Raised => true
      | Ok rows => forallb (fun row => is_raised (read_row row)) rows
      end
  end.

Definition table_data_raises (page : Page) : bool :=
  match section_card_table page with
  | Raised => true
  | Ok tables => forallb table_raises tables
  end.

Definition quarterly_raises (page : Page) : bool :=
  match (quarterly_section <- section_quarters page ;;
         q_table <- find_table quarterly_section ;;
         find_tbody_tr q_table)%result with
  | Raised => true
  | Ok q_rows => forallb (fun row => is_raised (read_quarter row)) (firstn 8 q_rows)
  end.

(** Every sub-extraction of the page raises: each scalar field, the
    tables, the quarterly section. *)
Definition every_extraction_raises (page : Page) : bool :=
  forallb (fun F => is_raised (scalar_read page F)) all_scalars
  && table_data_raises page && quarterly_raises page.

(* ================================================================== *)
(** ** What the table and quarterly loops read, in page order *)

(** The (label, values) pair a row hands to [store], if it gets there. *)
Definition row_entries (row : Row) : list (string * list string) :=
  match read_row row with
  | Ok (Some entry) => [entry]
  | Ok None => []
  | Raised => []
  end.

Definition table_entries (table : Table) : list (string * list string) :=
  match (th <- find_thead_th table ;; text_strip th)%result with
  | Raised => []
  | Ok _ =>
      match find_tbody_tr table with
      | Raised => []
      | Ok rows => flat_map row_entries rows
      end
  end.

(** Every pair stored while the tables of the page are scanned. *)
Definition page_entries (page : Page) : list (string * list string) :=
  match section_card_table page with
  | Raised => []
  | Ok tables => flat_map table_entries tables
  end.

Definition store_entry (d : FinancialRecord) (entry : string * list string)
    : FinancialRecord :=
  exec (store (fst entry) (snd entry)) d.

(** The quarter a quarterly row appends, if any. *)
Definition row_quarters (q_row : Row) : list Quarter :=
  match read_quarter q_row with
  | Ok (Some quarter) => [quarter]
  | Ok None => []
  | Raised => []
  end.

Definition kept_quarters (q_rows : list Row) : list Quarter :=
  flat_map row_quarters q_rows.

(** The body rows of the quarterly table, when they can be reached. *)
Definition quarter_rows (page : Page) : list Row :=
  match (quarterly_section <- section_quarters page ;;
         q_table <- find_table quarterly_section ;;
         find_tbody_tr q_table)%result with
  | Ok q_rows => q_rows
  | Raised => []
  end.

(** A quarterly row that appends nothing. *)
Definition malformed (q_row : Row) : bool :=
  match read_quarter q_row with
  | Ok (Some _) => false
  | Ok None => true
  | Raised => true
  end.

(** A quarterly row with at least 3 cells whose first three texts read as
    the period, the sales and the profit of [q]. *)
Definition is_quarter_row (q_row : Row) (q : Quarter) : Prop :=
  exists c0 c1 c2 rest,
    find_td q_row = Ok (c0 :: c1 :: c2 :: rest) /\
    text_strip c0 = Ok (period q) /\
    text_strip c1 = Ok (sales q) /\
    text_strip c2 = Ok (profit q).

(** The entries of a sequence that [store] files under series [s]. *)
Definition filed (s : series) (entries : list (string * list string))
    : list (string * list string) :=
  filter (fun entry => match classify (fst entry) with
                       | Some s' => series_eqb s' s
                       | None => false
                       end) entries.

(** The distinct labels of a sequence, each at its first place. *)
Fixpoint first_occurrences (labels : list string) : list string :=
  match labels with
  | [] => []
  | k :: labels' =>
      k :: filter (fun k' => negb (String.eqb k' k)) (first_occurrences labels')
  end.

(** The text starts, or ends, with a whitespace character. *)
Definition starts_with_space (v : string) : bool :=
  starts_with is_space is_space2 is_space3 (list_ascii_of_string v).

Definition ends_with_space (v : string) : bool :=
  starts_with is_space is_space2_rev is_space3_rev
    (rev (list_ascii_of_string v)).

(** A text with no whitespace character at either end. *)
Definition trimmed (v : string) : Prop :=
  starts_with_space v = false /\ ends_with_space v = false.

(* ================================================================== *)
(** ** The workbook, once the texts are checked *)

(** [[f(x) for x in l]], failing with the first [f(x)] that fails. *)
Fixpoint traverse {A B} (f : A -> result B) (l : list A) : result (list B) :=
  match l with
  | [] => Ok []
  | x :: l' => (y <- f x ;; ys <- traverse f l' ;; Ok (y :: ys))%result
  end.

(** The record with the six texts the Raw Data sheet shows as
    [check_string] leaves them, checked in the order they are written. *)
Definition checked_record (data : FinancialRecord) : result FinancialRecord :=
  (n <- check_string (data_name data) ;;
   s <- check_value (sector data) ;;
   p <- check_value (current_price data) ;;
   m <- check_value (market_cap data) ;;
   e <- check_value (pe_ratio data) ;;
   u <- check_string (data_url data) ;;
   Ok {| data_name := n; data_url := u;
         current_price := p; market_cap := m; pe_ratio := e; sector := s;
         revenue_data := revenue_data data; profit_data := profit_data data;
         margin_data := margin_data data;
         quarterly_data := quarterly_data data |})%result.

(** The six writes of one record whose texts are checked. *)
Definition raw_data_row_cells (row : nat) (data : FinancialRecord)
    (ws : Worksheet) : Worksheet :=
  write row 6 (Some (data_url data))
    (write row 5 (pe_ratio data)
       (write row 4 (market_cap data)
          (write row 3 (current_price data)
             (write row 2 (sector data)
                (write row 1 (Some (data_name data)) ws))))).

Definition header_cells : Worksheet :=
  fold_left (fun ws ch => write 1 (fst ch) (Some (snd ch)) ws)
    (enumerate 1 excel_headers) empty_sheet.

(** The Raw Data sheet of records whose texts are checked. *)
Definition raw_data_cells (all_data : list FinancialRecord) : Worksheet :=
  fold_left (fun ws rd => raw_data_row_cells (fst rd) (snd rd) ws)
    (enumerate 2 all_data) header_cells.


(** A text openpyxl refuses: within its first 32767 characters there is
    an illegal one. *)
Definition refused (text : string) : Prop :=
  has_illegal (take_chars 32767 text) = true.

(* ================================================================== *)
(** ** Sample pages *)

Definition elem (s : string) : WebElement :=
  {| text := Ok s; href := Ok None |}.

Definition link (s u : string) : WebElement :=
  {| text := Ok s; href := Ok (Some u) |}.

Definition cells (l : list string) : Row :=
  {| find_td := Ok (map elem l); find_td_a := Raised |}.

(** A detail page with the given scalar elements, tables and quarterly
    rows. *)
Definition detail_page (price mcap pe sec : result WebElement)
    (tables : list Table) (q_rows : list Row) : Page :=
  {| wait_table := Ok tt;
     table_tbody_tr := Ok [];
     top_ratios_1 := price;
     top_ratios_3 := mcap;
     top_ratios_5 := pe;
     sub_a := sec;
     section_card_table := Ok tables;
     section_quarters :=
       Ok {| find_table :=
               Ok {| find_thead_th := Raised; find_tbody_tr := Ok q_rows |} |} |}.

(** A page on which nothing can be read. *)
Definition unreadable_page : Page :=
  {| wait_table := Raised;
     table_tbody_tr := Raised;
     top_ratios_1 := Raised;
     top_ratios_3 := Raised;
     top_ratios_5 := Raised;
     sub_a := Raised;
     section_card_table := Raised;
     section_quarters := Raised |}.

(** A driver that serves the same page at every address. *)
Definition serve (page : Page) : Driver :=
  {| driver_get := fun _ => Ok page |}.

Definition acme : Company :=
  {| name := "Acme"; url := "https://www.screener.in/company/ACME/" |}.

(** The row of the scenario: label, then three yearly values. *)
Definition net_sales_row : Row := cells ["Net Sales"; "100"; "120"; "140"].

(** A row whose label matches both the first and the fourth rule. *)
Definition sales_margin_row : Row := cells ["Sales margin %"; "12%"; "14%"].

(** A row with its label only. *)
Definition label_only_row : Row := cells ["Net Sales"].

Definition table_of (rows : list Row) : Table :=
  {| find_thead_th := Ok (elem ""); find_tbody_tr := Ok rows |}.

(** Two tables that both have a row labelled "Net Profit". *)
Definition page_net_profit_twice : Page :=
  detail_page Raised Raised Raised Raised
    [ table_of [cells ["Net Profit"; "10"; "12"]; cells ["OPM margin"; "9%"; "8%"]];
      table_of [cells ["Net Profit"; "11"; "13"]] ] [].

(** A quarterly row with the three cells period, sales, profit. *)
Definition quarter_row (p : string) : Row := cells [p; "410"; "52"].

Definition quarter (p : string) : Quarter :=
  {| period := p; sales := "410"; profit := "52" |}.

Definition twelve_periods : list string :=
  ["Mar 2022"; "Jun 2022"; "Sep 2022"; "Dec 2022";
   "Mar 2023"; "Jun 2023"; "Sep 2023"; "Dec 2023";
   "Mar 2024"; "Jun 2024"; "Sep 2024"; "Dec 2024"].

(** A quarterly table of 12 well-formed rows. *)
Definition page_twelve_quarters : Page :=
  detail_page Raised Raised Raised Raised [] (map quarter_row twelve_periods).

(** A quarterly table of 9 rows whose third row has 2 cells only. *)
Definition nine_rows_one_short : list Row :=
  [quarter_row "Mar 2022"; quarter_row "Jun 2022"; cells ["Sep 2022"; "398"];
   quarter_row "Dec 2022"; quarter_row "Mar 2023"; quarter_row "Jun 2023";
   quarter_row "Sep 2023"; quarter_row "Dec 2023"; quarter_row "Mar 2024"].

Definition page_nine_quarters : Page :=
  detail_page Raised Raised Raised Raised [] nine_rows_one_short.

(** A watchlist page whose table has one row per (name, link) pair. *)
Definition watchlist_page (rows : list (string * string)) : Page :=
  {| wait_table := Ok tt;
     table_tbody_tr :=
       Ok (map (fun r => {| find_td := Raised;
                            find_td_a := Ok (link (fst r) (snd r)) |}) rows);
     top_ratios_1 := Raised;
     top_ratios_3 := Raised;
     top_ratios_5 := Raised;
     sub_a := Raised;
     section_card_table := Raised;
     section_quarters := Raised |}.

(** Watchlist A lists Acme and Globex, watchlist B lists Globex (under
    another address) and Initech. *)
Definition two_watchlists : Driver :=
  {| driver_get := fun u =>
       if String.eqb u "https://www.screener.in/watchlist/A/"
       then Ok (watchlist_page [("Acme", "/company/ACME/");
                                ("Globex", "/company/GLOBEX/")])
       else if String.eqb u "https://www.screener.in/watchlist/B/"
       then Ok (watchlist_page [("Globex", "/company/GLOBEX/consolidated/");
                                ("Initech", "/company/INITECH/")])
       else Raised |}.

Definition watchlists_A_B : list (string * string) :=
  [("My Stonks", "https://www.screener.in/watchlist/A/");
   ("Core Watchlist", "https://www.screener.in/watchlist/B/")].

(** A complete configuration in which no watchlist address is set. *)
Definition env_no_watchlists : Env :=
  {| SCREENER_USERNAME := Some "user";
     SCREENER_PASSWORD := Some "secret";
     GOOGLE_SHEET_ID := Some "sheet";
     GOOGLE_CREDENTIALS_BASE64 := Some "e30=";
     WATCHLISTS := [("My Stonks", ""); ("Core Watchlist", "")];
     setup_selenium := Ok (serve unreadable_page);
     login_to_screener := true |}.

(** A complete configuration whose watchlists list companies none of
    whose pages loads. *)
Definition env_no_page_loads : Env :=
  {| SCREENER_USERNAME := Some "user";
     SCREENER_PASSWORD := Some "secret";
     GOOGLE_SHEET_ID := Some "sheet";
     GOOGLE_CREDENTIALS_BASE64 := Some "e30=";
     WATCHLISTS := watchlists_A_B;
     setup_selenium := Ok two_watchlists;
     login_to_screener := true |}.

(** A table with a well-formed row but no header cell. *)
Definition headerless_table : Table :=
  {| find_thead_th := Raised; find_tbody_tr := Ok [net_sales_row] |}.

Definition page_headerless_table : Page :=
  detail_page Raised Raised Raised Raised [headerless_table] [].

Definition page_no_table : Page :=
  detail_page Raised Raised Raised Raised [] [].

Definition watchlist_A : list (string * string) :=
  [("My Stonks", "https://www.screener.in/watchlist/A/")].

(** A site whose watchlist lists Acme and whose other pages all are the
    detail page without a market cap. *)
Definition acme_site : Driver :=
  {| driver_get := fun u =>
       if String.eqb u "https://www.screener.in/watchlist/A/"
       then Ok (watchlist_page [("Acme", "https://www.screener.in/company/ACME/")])
       else Ok (detail_page (Ok (elem "1520")) Raised (Ok (elem "25"))
                  (Ok (elem "IT")) [] []) |}.

(** A complete configuration for [acme_site]. *)
Definition env_acme : Env :=
  {| SCREENER_USERNAME := Some "user";
     SCREENER_PASSWORD := Some "secret";
     GOOGLE_SHEET_ID := Some "sheet";
     GOOGLE_CREDENTIALS_BASE64 := Some "e30=";
     WATCHLISTS := watchlist_A;
     setup_selenium := Ok acme_site;
     login_to_screener := true |}.

(** A configuration without a password. *)
Definition env_no_password : Env :=
  {| SCREENER_USERNAME := Some "user";
     SCREENER_PASSWORD := None;
     GOOGLE_SHEET_ID := Some "sheet";
     GOOGLE_CREDENTIALS_BASE64 := Some "e30=";
     WATCHLISTS := watchlist_A;
     setup_selenium := Ok acme_site;
     login_to_screener := true |}.

(** A login after which the browser is at the dashboard. *)
Definition login_to_dashboard : LoginSession :=
  {| get_login := Ok tt; wait_username := Ok tt;
     send_username := Ok tt; send_password := Ok tt;
     click_submit := Ok tt;
     current_url := Ok "https://www.screener.in/dash/" |}.

(** U+00A0, the no-break space, and U+2003, the em space, as UTF-8. *)
Definition nbsp : string :=
  String (ascii_of_nat 194) (String (ascii_of_nat 160) EmptyString).

Definition em_space : string :=
  String (ascii_of_nat 226)
    (String (ascii_of_nat 128) (String (ascii_of_nat 131) EmptyString)).

(** A text between a no-break space and a space in front and an em space
    and a line feed behind. *)
Definition padded (v : string) : string :=
  (nbsp ++ " " ++ v ++ em_space ++ String (ascii_of_nat 10) EmptyString)%string.

(** A detail page whose price is padded with whitespace. *)
Definition page_padded : Page :=
  detail_page (Ok (elem (padded "1520"))) Raised Raised Raised [] [].

(** A watchlist whose rows name Acme with padding, a company whose name
    is a no-break space only, and Acme again followed by an em space. *)
Definition padded_watchlist : Driver :=
  {| driver_get := fun _ =>
       Ok (watchlist_page [(padded "Acme", "/company/ACME/");
                           (nbsp, "/company/BLANK/");
                           (("Acme" ++ em_space)%string, "/company/ACME2/")]) |}.

(** A detail page with the four scalars, a table and a quarter; the same
    page without the scalars; and the same page with the scalars only. *)
Definition page_full : Page :=
  detail_page (Ok (elem "1520")) (Ok (elem "98,000")) (Ok (elem "25"))
    (Ok (elem "IT")) [table_of [net_sales_row]] [quarter_row "Mar 2022"].

Definition page_tables_only : Page :=
  detail_page Raised Raised Raised Raised
    [table_of [net_sales_row]] [quarter_row "Mar 2022"].

Definition page_scalars_only : Page :=
  detail_page (Ok (elem "1520")) (Ok (elem "98,000")) (Ok (elem "25"))
    (Ok (elem "IT")) [] [].

(** A record whose name has the control character U+0007 in it. *)
Definition record_with_bell : FinancialRecord :=
  initial_data {| name := String "A" (String (ascii_of_nat 7) "cme");
                  url := "/company/ACME/" |}.

(** All four scalar elements present but the market cap. *)
Definition page_no_mcap : Page :=
  detail_page (Ok (elem "1520")) Raised (Ok (elem "25")) (Ok (elem "IT")) [] [].

(** All four scalar elements present but the sector link. *)
Definition page_no_sector : Page :=
  detail_page (Ok (elem "1520")) (Ok (elem "98,000")) (Ok (elem "25")) Raised [] [].

(* ================================================================== *)
(** ** Facts about statements *)

Lemma try_except_run (m : M unit) d :
  try_except m d = (Ok tt, exec m d).
Proof. reflexivity. Qed.

(** A loop whose body is a [try] runs every iteration. *)
Lemma for_each_try {A} (body : A -> M unit) (l : list A) d :
  for_each l (fun x => try_except (body x)) d =
  (Ok tt, fold_left (fun d x => exec (body x) d) l d).
Proof.
  revert d; induction l as [|x l IH]; intros d; simpl.
  - reflexivity.
  - unfold bind at 1. rewrite try_except_run. apply IH.
Qed.

(** *** Frame rules *)

Section Frame.

Context {X : Type} (f : FinancialRecord -> X).

Lemma preserves_ret {A} (a : A) : preserves f (ret a).
Proof. intros d; reflexivity. Qed.

Lemma preserves_lift {A} (r : result A) : preserves f (lift r).
Proof. intros d; reflexivity. Qed.

Lemma preserves_modify g :
  (forall d, f (g d) = f d) -> preserves f (modify g).
Proof. intros H d; apply H. Qed.

Lemma preserves_bind {A B} (m : M A) (k : A -> M B) :
  preserves f m -> (forall a, preserves f (k a)) -> preserves f (bind m k).
Proof.
  intros Hm Hk d. unfold exec, bind.
  specialize (Hm d). unfold exec in Hm.
  destruct (m d) as [[a|] d']; simpl in *.
  - rewrite <- Hm. apply Hk.
  - exact Hm.
Qed.

Lemma preserves_try_except (m : M unit) :
  preserves f m -> preserves f (try_except m).
Proof. intros Hm d; apply Hm. Qed.

Lemma preserves_for_each {A} (l : list A) (body : A -> M unit) :
  (forall x, preserves f (body x)) -> preserves f (for_each l body).
Proof.
  intros Hb; induction l as [|x l IH]; simpl.
  - apply preserves_ret.
  - apply preserves_bind; [apply Hb | intros _; exact IH].
Qed.

End Frame.

Lemma store_preserves {X} (f : FinancialRecord -> X) metric_name values :
  (forall k v d, f (set_revenue k v d) = f d) ->
  (forall k v d, f (set_profit k v d) = f d) ->
  (forall k v d, f (set_margin k v d) = f d) ->
  preserves f (store metric_name values).
Proof.
  intros Hr Hp Hm. unfold store.
  destruct (classify metric_name) as [[| |]|];
    (apply preserves_modify; auto) || apply preserves_ret.
Qed.

Lemma process_row_preserves {X} (f : FinancialRecord -> X) row :
  (forall k v d, f (set_revenue k v d) = f d) ->
  (forall k v d, f (set_profit k v d) = f d) ->
  (forall k v d, f (set_margin k v d) = f d) ->
  preserves f (process_row row).
Proof.
  intros Hr Hp Hm. unfold process_row.
  apply preserves_try_except, preserves_bind; [apply preserves_lift|].
  intros [[k v]|]; [apply store_preserves; auto | apply preserves_ret].
Qed.

Lemma extract_table_data_preserves {X} (f : FinancialRecord -> X) page :
  (forall k v d, f (set_revenue k v d) = f d) ->
  (forall k v d, f (set_profit k v d) = f d) ->
  (forall k v d, f (set_margin k v d) = f d) ->
  preserves f (extract_table_data page).
Proof.
  intros Hr Hp Hm. unfold extract_table_data, process_table.
  apply preserves_try_except, preserves_bind; [apply preserves_lift|]; intros tables.
  apply preserves_for_each; intros table.
  apply preserves_try_except, preserves_bind; [apply preserves_lift|]; intros _.
  apply preserves_bind; [apply preserves_lift|]; intros rows.
  apply preserves_for_each; intros row.
  apply process_row_preserves; auto.
Qed.

Lemma extract_quarterly_preserves {X} (f : FinancialRecord -> X) page :
  (forall q d, f (append_quarter q d) = f d) ->
  preserves f (extract_quarterly page).
Proof.
  intros Hq. unfold extract_quarterly, process_quarter.
  apply preserves_try_except.
  do 3 (apply preserves_bind; [apply preserves_lift|]; intro).
  apply preserves_for_each; intros row.
  apply preserves_try_except, preserves_bind; [apply preserves_lift|].
  intros [q|]; [apply preserves_modify; auto | apply preserves_ret].
Qed.

Lemma extract_basic_info_preserves {X} (f : FinancialRecord -> X) page :
  (forall v d, f (set_current_price v d) = f d) ->
  (forall v d, f (set_market_cap v d) = f d) ->
  (forall v d, f (set_pe_ratio v d) = f d) ->
  (forall v d, f (set_sector v d) = f d) ->
  preserves f (extract_basic_info page).
Proof.
  intros H1 H2 H3 H4. unfold extract_basic_info.
  apply preserves_try_except.
  repeat first
    [ apply preserves_bind; [first [apply preserves_lift | apply preserves_modify; auto]|]; intro
    | apply preserves_modify; auto ].
Qed.

(** The three blocks of [scrape_company_data] run one after the other,
    whatever raises inside them. *)
Lemma extract_page_run page d :
  extract_page page d =
  (Ok tt, exec (extract_quarterly page)
            (exec (extract_table_data page)
               (exec (extract_basic_info page) d))).
Proof. reflexivity. Qed.

Lemma scrape_company_data_run driver company tr :
  scrape_company_data driver company tr =
  (match driver_get driver (url company) with
   | Ok page => Some (exec (extract_page page) (initial_data company))
   | Raised => None
   end, tr ++ [EvGet (url company)]).
Proof.
  unfold scrape_company_data.
  destruct (driver_get driver (url company)) as [page|]; [|reflexivity].
  rewrite extract_page_run. reflexivity.
Qed.

Lemma extracted_run driver company :
  extracted driver company =
  match driver_get driver (url company) with
  | Ok page => Some (exec (extract_page page) (initial_data company))
  | Raised => None
  end.
Proof. unfold extracted. rewrite scrape_company_data_run. reflexivity. Qed.

(* ================================================================== *)
(** ** The scalar block *)

(** Field [G] ends up set exactly when it and every field read before it
    could be read. *)
Lemma extract_basic_info_scalar page d G :
  scalar_of (exec (extract_basic_info page) d) G =
  if forallb (fun F => (rank G <? rank F) || negb (is_raised (scalar_read page F)))
       all_scalars
  then match scalar_read page G with
       | Ok v => Some v
       | Raised => scalar_of d G
       end
  else scalar_of d G.
Proof.
  unfold extract_basic_info, exec, scalar_read, text_strip.
  rewrite try_except_run. unfold exec, bind, lift, modify, all_scalars.
  destruct G; cbn;
  (destruct (top_ratios_1 page) as [e1|]; cbn;
    [destruct (text e1); cbn|]); try reflexivity;
  (destruct (top_ratios_3 page) as [e2|]; cbn;
    [destruct (text e2); cbn|]); try reflexivity;
  (destruct (top_ratios_5 page) as [e3|]; cbn;
    [destruct (text e3); cbn|]); try reflexivity;
  (destruct (sub_a page) as [e4|]; cbn;
    [destruct (text e4); cbn|]); reflexivity.
Qed.

Lemma extract_page_scalar page d G :
  scalar_of (exec (extract_page page) d) G =
  scalar_of (exec (extract_basic_info page) d) G.
Proof.
  unfold exec at 1. rewrite extract_page_run. simpl.
  rewrite (extract_quarterly_preserves (fun d => scalar_of d G));
    [|intros q []; destruct G; reflexivity].
  rewrite (extract_table_data_preserves (fun d => scalar_of d G));
    try (intros k v []; destruct G; reflexivity).
  reflexivity.
Qed.

(** C1, as the program has it: the four scalar fields are read in the
    order price, market cap, P/E, sector inside one failure handler.  When
    reading raises for exactly one field [F], the record is returned with
    the fields read before [F] populated, and with [F] and every field
    read after [F] absent. *)
Theorem scalar_block_stops_at_first_failure driver company tr page F :
  driver_get driver (url company) = Ok page ->
  scalar_read page F = Raised ->
  (forall G, G <> F -> exists v, scalar_read page G = Ok v) ->
  exists data,
    fst (scrape_company_data driver company tr) = Some data /\
    (forall G, rank G < rank F ->
       exists v, scalar_read page G = Ok v /\ scalar_of data G = Some v) /\
    (forall G, rank F <= rank G -> scalar_of data G = None).
Proof.
  intros Hget HF Hothers.
  rewrite scrape_company_data_run, Hget. simpl.
  eexists; split; [reflexivity|].
  assert (Hok : forall G, G <> F -> is_raised (scalar_read page G) = false).
  { intros G HG. destruct (Hothers G HG) as [v ->]. reflexivity. }
  split.
  - intros G Hlt.
    assert (HG : G <> F) by (intros ->; lia).
    destruct (Hothers G HG) as [v Hv]. exists v; split; [exact Hv|].
    rewrite extract_page_scalar, extract_basic_info_scalar, Hv.
    replace (forallb _ all_scalars) with true; [reflexivity|].
    symmetry. apply forallb_forall. intros H _.
    destruct (Nat.ltb_spec (rank G) (rank H)) as [|Hle]; [reflexivity|].
    rewrite Hok; [reflexivity|]. intros ->; lia.
  - intros G Hle.
    rewrite extract_page_scalar, extract_basic_info_scalar.
    replace (forallb _ all_scalars) with false.
    + destruct G; reflexivity.
    + symmetry. apply not_true_is_false. intros Hall.
      rewrite forallb_forall in Hall.
      assert (HinF : In F all_scalars) by (destruct F; simpl; tauto).
      specialize (Hall F HinF). rewrite HF in Hall. simpl in Hall.
      rewrite orb_false_r in Hall. apply Nat.ltb_lt in Hall. lia.
Qed.

Lemma scalar_block_stops_at_first_failure_witness :
  exists data,
    fst (scrape_company_data (serve page_no_mcap) acme []) = Some data /\
    (forall G, rank G < rank FMarketCap ->
       exists v, scalar_read page_no_mcap G = Ok v /\ scalar_of data G = Some v) /\
    (forall G, rank FMarketCap <= rank G -> scalar_of data G = None).
Proof.
  apply (scalar_block_stops_at_first_failure
           (serve page_no_mcap) acme [] page_no_mcap FMarketCap).
  - reflexivity.
  - reflexivity.
  - intros [] HG; try congruence; eexists; reflexivity.
Defined.

(** When the field read last is the one that raises, the other three are
    populated. *)
Example sector_failure_keeps_the_others :
  fst (scrape_company_data (serve page_no_sector) acme []) =
  Some {| data_name := "Acme";
          data_url := "https://www.screener.in/company/ACME/";
          current_price := Some "1520";
          market_cap := Some "98,000";
          pe_ratio := Some "25";
          sector := None;
          revenue_data := [];
          profit_data := [];
          margin_data := [];
          quarterly_data := [] |}.
Proof. reflexivity. Qed.

(** C1, as stated, fails: on a page where only the market cap cannot be
    read, the P/E ratio and the sector are absent from the record as
    well, although both could be read. *)
Lemma scalar_fields_not_isolated :
  scalar_read page_no_mcap FPrice = Ok "1520" /\
  scalar_read page_no_mcap FMarketCap = Raised /\
  scalar_read page_no_mcap FPERatio = Ok "25" /\
  scalar_read page_no_mcap FSector = Ok "IT" /\
  fst (scrape_company_data (serve page_no_mcap) acme []) =
  Some {| data_name := "Acme";
          data_url := "https://www.screener.in/company/ACME/";
          current_price := Some "1520";
          market_cap := None;
          pe_ratio := None;
          sector := None;
          revenue_data := [];
          profit_data := [];
          margin_data := [];
          quarterly_data := [] |}.
Proof. repeat split; reflexivity. Qed.

(* ================================================================== *)
(** ** The table and quarterly blocks as folds over what they read *)

Lemma fold_left_flat_map {S X Y} (f : S -> Y -> S) (g : X -> list Y) l s :
  fold_left f (flat_map g l) s =
  fold_left (fun s x => fold_left f (g x) s) l s.
Proof.
  revert s; induction l as [|x l IH]; intros s; simpl; [reflexivity|].
  rewrite fold_left_app. apply IH.
Qed.

Lemma fold_left_ext_in {S X} (f g : S -> X -> S) l s :
  (forall s x, In x l -> f s x = g s x) -> fold_left f l s = fold_left g l s.
Proof.
  revert s; induction l as [|x l IH]; intros s H; simpl; [reflexivity|].
  rewrite H by (left; reflexivity). apply IH. intros; apply H; right; assumption.
Qed.

Lemma process_row_exec row d :
  exec (process_row row) d = fold_left store_entry (row_entries row) d.
Proof.
  unfold process_row, row_entries, exec. rewrite try_except_run.
  unfold exec, bind, lift.
  destruct (read_row row) as [[[k v]|]|]; reflexivity.
Qed.

Lemma for_each_process_row rows d :
  for_each rows process_row d =
  (Ok tt, fold_left store_entry (flat_map row_entries rows) d).
Proof.
  unfold process_row. rewrite for_each_try. f_equal.
  rewrite fold_left_flat_map. apply fold_left_ext_in.
  intros s row _. apply (process_row_exec row s).
Qed.

Lemma process_table_exec table d :
  exec (process_table table) d = fold_left store_entry (table_entries table) d.
Proof.
  unfold process_table, table_entries, exec. rewrite try_except_run.
  unfold exec, bind, lift.
  destruct (th <- find_thead_th table;; text_strip th)%result; [|reflexivity].
  destruct (find_tbody_tr table) as [rows|]; [|reflexivity].
  rewrite for_each_process_row. reflexivity.
Qed.

Lemma extract_table_data_exec page d :
  exec (extract_table_data page) d = fold_left store_entry (page_entries page) d.
Proof.
  unfold extract_table_data, page_entries, exec. rewrite try_except_run.
  unfold exec, bind, lift.
  destruct (section_card_table page) as [tables|]; [|reflexivity].
  unfold process_table. rewrite for_each_try. simpl.
  rewrite fold_left_flat_map. apply fold_left_ext_in.
  intros s table _. apply (process_table_exec table s).
Qed.

Lemma process_quarter_exec q_row d :
  exec (process_quarter q_row) d =
  fold_left (fun d q => append_quarter q d) (row_quarters q_row) d.
Proof.
  unfold process_quarter, row_quarters, exec. rewrite try_except_run.
  unfold exec, bind, lift.
  destruct (read_quarter q_row) as [[q|]|]; reflexivity.
Qed.

Lemma extract_quarterly_exec page d :
  exec (extract_quarterly page) d =
  fold_left (fun d q => append_quarter q d)
    (kept_quarters (firstn 8 (quarter_rows page))) d.
Proof.
  unfold extract_quarterly, quarter_rows, kept_quarters, exec.
  rewrite try_except_run. unfold exec, bind, lift, rbind.
  destruct (section_quarters page) as [sec|]; [|reflexivity].
  destruct (find_table sec) as [tbl|]; [|reflexivity].
  destruct (find_tbody_tr tbl) as [q_rows|]; [|reflexivity].
  unfold process_quarter. rewrite for_each_try. simpl.
  rewrite fold_left_flat_map. apply fold_left_ext_in.
  intros s row _. apply (process_quarter_exec row s).
Qed.

Lemma quarterly_data_fold qs d :
  quarterly_data (fold_left (fun d q => append_quarter q d) qs d) =
  quarterly_data d ++ qs.
Proof.
  revert d; induction qs as [|q qs IH]; intros d; simpl.
  - symmetry; apply app_nil_r.
  - rewrite IH. simpl. rewrite <- app_assoc. reflexivity.
Qed.

(** The quarterly sequence of the record: what the first 8 body rows of
    the quarterly table append, in order. *)
Lemma extract_page_quarterly page company :
  quarterly_data (exec (extract_page page) (initial_data company)) =
  kept_quarters (firstn 8 (quarter_rows page)).
Proof.
  unfold exec at 1. rewrite extract_page_run. simpl.
  rewrite extract_quarterly_exec, quarterly_data_fold.
  rewrite (extract_table_data_preserves quarterly_data);
    try (intros k v []; reflexivity).
  rewrite (extract_basic_info_preserves quarterly_data);
    try (intros v []; reflexivity).
  reflexivity.
Qed.

(** The identity of the record is that of the company. *)
Lemma extract_page_identity page company :
  let data := exec (extract_page page) (initial_data company) in
  data_name data = name company /\ data_url data = url company.
Proof.
  unfold exec. rewrite extract_page_run. simpl. split.
  - rewrite (extract_quarterly_preserves data_name); [|intros q []; reflexivity].
    rewrite (extract_table_data_preserves data_name);
      try (intros k v []; reflexivity).
    rewrite (extract_basic_info_preserves data_name);
      try (intros v []; reflexivity).
    reflexivity.
  - rewrite (extract_quarterly_preserves data_url); [|intros q []; reflexivity].
    rewrite (extract_table_data_preserves data_url);
      try (intros k v []; reflexivity).
    rewrite (extract_basic_info_preserves data_url);
      try (intros v []; reflexivity).
    reflexivity.
Qed.

(* ================================================================== *)
(** ** A record whenever the page loads *)

Lemma extract_basic_info_first_raises page d :
  scalar_read page FPrice = Raised -> exec (extract_basic_info page) d = d.
Proof.
  unfold extract_basic_info, exec, scalar_read.
  rewrite try_except_run. unfold exec, bind, lift, text_strip, rbind.
  destruct (top_ratios_1 page) as [e|]; [|reflexivity].
  destruct (text e); [discriminate | reflexivity].
Qed.

Lemma flat_map_nil {X Y} (g : X -> list Y) l :
  (forall x, In x l -> g x = []) -> flat_map g l = [].
Proof.
  induction l as [|x l IH]; intros H; simpl; [reflexivity|].
  rewrite H by (left; reflexivity). apply IH. intros; apply H; right; assumption.
Qed.

Lemma table_raises_no_entries table :
  table_raises table = true -> table_entries table = [].
Proof.
  unfold table_raises, table_entries.
  destruct (th <- find_thead_th table;; text_strip th)%result; [|reflexivity].
  destruct (find_tbody_tr table) as [rows|]; [|reflexivity].
  rewrite forallb_forall. intros H. apply flat_map_nil. intros row Hin.
  specialize (H row Hin). unfold row_entries.
  destruct (read_row row) as [[e|]|]; [discriminate | reflexivity | reflexivity].
Qed.

Lemma table_data_raises_no_entries page :
  table_data_raises page = true -> page_entries page = [].
Proof.
  unfold table_data_raises, page_entries.
  destruct (section_card_table page) as [tables|]; [|reflexivity].
  rewrite forallb_forall. intros H. apply flat_map_nil. intros table Hin.
  apply table_raises_no_entries, H, Hin.
Qed.

Lemma quarterly_raises_no_quarters page :
  quarterly_raises page = true ->
  kept_quarters (firstn 8 (quarter_rows page)) = [].
Proof.
  unfold quarterly_raises, quarter_rows.
  destruct (_ <- section_quarters page;; _)%result as [q_rows|]; [|reflexivity].
  rewrite forallb_forall. intros H. apply flat_map_nil. intros row Hin.
  specialize (H row Hin). unfold row_quarters.
  destruct (read_quarter row) as [[q|]|]; [discriminate | reflexivity | reflexivity].
Qed.

(** C4: [scrape_company_data] returns a record whenever [driver.get]
    succeeded, with the identity of the company; when every sub-extraction
    (each scalar, the tables, the quarterly section) raises it is the
    record with all optional fields absent and all series empty.  It
    returns no record exactly when the navigation raised. *)
Theorem record_whenever_navigation_succeeds driver company tr :
  match driver_get driver (url company) with
  | Ok page =>
      exists data,
        fst (scrape_company_data driver company tr) = Some data /\
        data_name data = name company /\
        data_url data = url company /\
        (every_extraction_raises page = true ->
         data = {| data_name := name company; data_url := url company;
                   current_price := None; market_cap := None;
                   pe_ratio := None; sector := None;
                   revenue_data := []; profit_data := []; margin_data := [];
                   quarterly_data := [] |})
  | Raised => fst (scrape_company_data driver company tr) = None
  end.
Proof.
  rewrite scrape_company_data_run.
  destruct (driver_get driver (url company)) as [page|]; simpl; [|reflexivity].
  eexists; split; [reflexivity|].
  destruct (extract_page_identity page company) as [Hn Hu].
  split; [exact Hn|]. split; [exact Hu|].
  unfold every_extraction_raises. rewrite !andb_true_iff.
  intros [[Hs Ht] Hq].
  unfold exec. rewrite extract_page_run. simpl.
  rewrite extract_quarterly_exec, (quarterly_raises_no_quarters _ Hq). simpl.
  rewrite extract_table_data_exec, (table_data_raises_no_entries _ Ht). simpl.
  apply extract_basic_info_first_raises.
  rewrite forallb_forall in Hs. specialize (Hs FPrice (or_introl eq_refl)).
  destruct (scalar_read page FPrice); [discriminate | reflexivity].
Qed.

(** On a page where nothing can be read the record is still returned. *)
Example record_of_unreadable_page :
  every_extraction_raises unreadable_page = true /\
  scrape_company_data (serve unreadable_page) acme [] =
  (Some (initial_data acme), [EvGet (url acme)]).
Proof. split; reflexivity. Qed.

(* ================================================================== *)
(** ** The batch orchestrator *)

Lemma scrape_company_data_extracted driver company tr :
  scrape_company_data driver company tr =
  (extracted driver company, tr ++ [EvGet (url company)]).
Proof. rewrite scrape_company_data_run, extracted_run. reflexivity. Qed.

Lemma scrape_loop_run driver companies st tr :
  scrape_loop driver companies st tr =
  ((fst st ++ flat_map (fun c => match extracted driver c with
                               | Some d => [d]
                               | None => []
                               end) companies,
    snd st + length (filter (succeeded driver) companies)),
   tr ++ map (fun c => EvGet (url c)) companies).
Proof.
  revert st tr; induction companies as [|c cs IH]; intros [all_data n] tr; simpl.
  - rewrite !app_nil_r, Nat.add_0_r. reflexivity.
  - rewrite scrape_company_data_extracted. unfold succeeded.
    destruct (extracted driver c) as [d|]; rewrite IH; simpl.
    + rewrite <- !app_assoc. simpl. rewrite Nat.add_succ_r. reflexivity.
    + rewrite <- !app_assoc. reflexivity.
Qed.

Lemma filter_length_split {X} (p : X -> bool) l :
  length (filter p l) + length (filter (fun x => negb (p x)) l) = length l.
Proof.
  induction l as [|x l IH]; simpl; [reflexivity|].
  destruct (p x); simpl; lia.
Qed.

(** C5: [scrape_all_companies] navigates to each company once, one after
    the other in input order; of [N] companies of which [k] give no
    record, the output holds [N - k] records, and they are the records of
    the successful companies in input order. *)
Theorem batch_keeps_successes_in_order driver companies tr :
  let out := fst (scrape_all_companies driver companies tr) in
  let k := length (filter (fun c => negb (succeeded driver c)) companies) in
  snd (scrape_all_companies driver companies tr)
    = tr ++ map (fun c => EvGet (url c)) companies /\
  length out = length companies - k /\
  map Some out = filter is_some (map (extracted driver) companies) /\
  map data_name out = map name (filter (succeeded driver) companies).
Proof.
  unfold scrape_all_companies. rewrite scrape_loop_run. simpl.
  split; [reflexivity|].
  assert (Hout : map Some (flat_map (fun c => match extracted driver c with
                                             | Some d => [d]
                                             | None => []
                                             end) companies)
                 = filter is_some (map (extracted driver) companies)).
  { induction companies as [|c cs IH]; simpl; [reflexivity|].
    destruct (extracted driver c); simpl; rewrite IH; reflexivity. }
  split; [|split].
  - pose proof (filter_length_split (succeeded driver) companies) as Hsplit.
    assert (Hlen : length (flat_map (fun c => match extracted driver c with
                                             | Some d => [d]
                                             | None => []
                                             end) companies)
                   = length (filter (succeeded driver) companies)).
    { clear. induction companies as [|c cs IH]; simpl; [reflexivity|].
      unfold succeeded at 1. destruct (extracted driver c); simpl; lia. }
    lia.
  - exact Hout.
  - clear Hout. induction companies as [|c cs IH]; simpl; [reflexivity|].
    unfold succeeded at 1. rewrite extracted_run.
    destruct (driver_get driver (url c)) as [page|]; simpl; [|exact IH].
    rewrite IH. f_equal. apply extract_page_identity.
Qed.

(* ================================================================== *)
(** ** Quarterly results *)

Lemma read_quarter_some q_row q :
  read_quarter q_row = Ok (Some q) <-> is_quarter_row q_row q.
Proof.
  unfold read_quarter, is_quarter_row, rbind, index. split.
  - destruct (find_td q_row) as [cs|]; [|discriminate].
    destruct cs as [|c0 [|c1 [|c2 rest]]]; simpl; try discriminate.
    destruct (text_strip c0) as [p|] eqn:E0; [|discriminate].
    destruct (text_strip c1) as [s|] eqn:E1; [|discriminate].
    destruct (text_strip c2) as [f|] eqn:E2; [|discriminate].
    intros H; injection H as <-. exists c0, c1, c2, rest. simpl. auto.
  - intros (c0 & c1 & c2 & rest & -> & H0 & H1 & H2). simpl.
    rewrite H0, H1, H2. destruct q; reflexivity.
Qed.

Lemma malformed_spec q_row :
  malformed q_row = true <-> forall q, ~ is_quarter_row q_row q.
Proof.
  unfold malformed. split.
  - intros H q Hq. apply read_quarter_some in Hq. rewrite Hq in H. discriminate.
  - intros H. destruct (read_quarter q_row) as [[q|]|] eqn:E; try reflexivity.
    exfalso. apply (H q), read_quarter_some, E.
Qed.

Lemma kept_quarters_in q_rows q :
  In q (kept_quarters q_rows) <->
  exists q_row, In q_row q_rows /\ is_quarter_row q_row q.
Proof.
  unfold kept_quarters. rewrite in_flat_map. split.
  - intros (row & Hin & Hq). exists row; split; [exact Hin|].
    apply read_quarter_some. unfold row_quarters in Hq.
    destruct (read_quarter row) as [[q'|]|]; simpl in Hq; try tauto.
    destruct Hq as [->|[]]. reflexivity.
  - intros (row & Hin & Hq). exists row; split; [exact Hin|].
    apply read_quarter_some in Hq. unfold row_quarters. rewrite Hq. left; reflexivity.
Qed.

Lemma kept_quarters_length q_rows :
  length (kept_quarters q_rows) + length (filter malformed q_rows) = length q_rows.
Proof.
  unfold kept_quarters. induction q_rows as [|row rows IH]; simpl; [reflexivity|].
  rewrite length_app. unfold row_quarters at 1, malformed at 1.
  destruct (read_quarter row) as [[q|]|]; simpl; lia.
Qed.

Lemma kept_quarters_all_valid q_rows qs :
  Forall2 is_quarter_row q_rows qs -> kept_quarters q_rows = qs.
Proof.
  unfold kept_quarters. induction 1 as [|row q rows qs Hq _ IH]; simpl; [reflexivity|].
  apply read_quarter_some in Hq. unfold row_quarters at 1. rewrite Hq, IH. reflexivity.
Qed.

Lemma Forall2_firstn {X Y} (R : X -> Y -> Prop) n l l' :
  Forall2 R l l' -> Forall2 R (firstn n l) (firstn n l').
Proof.
  intros H; revert n; induction H; intros [|n]; simpl; constructor; auto.
Qed.

Lemma quarter_rows_reached page sec tbl q_rows :
  section_quarters page = Ok sec -> find_table sec = Ok tbl ->
  find_tbody_tr tbl = Ok q_rows -> quarter_rows page = q_rows.
Proof. unfold quarter_rows; intros -> Ht; simpl; rewrite Ht; simpl; intros ->; reflexivity. Qed.

(** C6: the quarterly sequence is what the first 8 body rows of the
    quarterly table yield, in order: at most 8 entries, each from a row
    with at least 3 cells read positionally as period, sales, profit; rows
    that do not read so are skipped.  From a table of 12 valid rows
    exactly the first 8 are retained, in the original order. *)
Theorem quarterly_keeps_first_eight driver company tr page sec tbl q_rows :
  driver_get driver (url company) = Ok page ->
  section_quarters page = Ok sec ->
  find_table sec = Ok tbl ->
  find_tbody_tr tbl = Ok q_rows ->
  exists data,
    fst (scrape_company_data driver company tr) = Some data /\
    quarterly_data data = kept_quarters (firstn 8 q_rows) /\
    length (quarterly_data data) <= 8 /\
    (forall q, In q (quarterly_data data) <->
       exists q_row, In q_row (firstn 8 q_rows) /\ is_quarter_row q_row q) /\
    (forall qs, length q_rows = 12 -> Forall2 is_quarter_row q_rows qs ->
       quarterly_data data = firstn 8 qs /\ length (quarterly_data data) = 8).
Proof.
  intros Hget Hsec Htbl Hrows.
  rewrite scrape_company_data_run, Hget. cbn [fst].
  eexists; split; [reflexivity|].
  rewrite extract_page_quarterly, (quarter_rows_reached _ _ _ _ Hsec Htbl Hrows).
  split; [reflexivity|]. split; [|split].
  - pose proof (kept_quarters_length (firstn 8 q_rows)) as Hlen.
    pose proof (firstn_le_length 8 q_rows). lia.
  - intros q. apply kept_quarters_in.
  - intros qs Hlen Hall.
    rewrite (kept_quarters_all_valid _ _ (Forall2_firstn _ 8 _ _ Hall)).
    split; [reflexivity|].
    rewrite length_firstn. apply Forall2_length in Hall. lia.
Qed.

Lemma quarterly_keeps_first_eight_witness :
  exists data,
    fst (scrape_company_data (serve page_twelve_quarters) acme []) = Some data /\
    quarterly_data data = map quarter (firstn 8 twelve_periods).
Proof.
  destruct (quarterly_keeps_first_eight (serve page_twelve_quarters) acme []
              page_twelve_quarters _ _ (map quarter_row twelve_periods)
              eq_refl eq_refl eq_refl eq_refl)
    as (data & Hdata & _ & _ & _ & Htwelve).
  exists data; split; [exact Hdata|].
  apply (Htwelve (map quarter twelve_periods) eq_refl).
  repeat constructor;
    (eexists _, _, _, _; repeat split; reflexivity).
Defined.

(** C10: the slice [q_rows[:8]] is taken before rows are checked.  Every
    entry of the quarterly sequence comes from one of the first 8 body
    rows, whatever the rows after them are; each of those 8 rows that does
    not read as a quarter leaves the sequence one entry shorter, so a
    malformed row among them gives fewer than 8 entries. *)
Theorem quarterly_slice_precedes_filter driver company tr page sec tbl q_rows :
  driver_get driver (url company) = Ok page ->
  section_quarters page = Ok sec ->
  find_table sec = Ok tbl ->
  find_tbody_tr tbl = Ok q_rows ->
  exists data,
    fst (scrape_company_data driver company tr) = Some data /\
    (forall q, In q (quarterly_data data) ->
       exists i q_row,
         i < 8 /\ nth_error q_rows i = Some q_row /\ is_quarter_row q_row q) /\
    length (quarterly_data data) =
      length (firstn 8 q_rows) - length (filter malformed (firstn 8 q_rows)) /\
    ((exists q_row, In q_row (firstn 8 q_rows) /\ malformed q_row = true) ->
     length (quarterly_data data) < 8).
Proof.
  intros Hget Hsec Htbl Hrows.
  rewrite scrape_company_data_run, Hget. cbn [fst].
  eexists; split; [reflexivity|].
  rewrite extract_page_quarterly, (quarter_rows_reached _ _ _ _ Hsec Htbl Hrows).
  pose proof (kept_quarters_length (firstn 8 q_rows)) as Hlen.
  pose proof (firstn_le_length 8 q_rows) as Hle.
  rewrite length_firstn in *.
  split; [|split].
  - intros q Hq. apply kept_quarters_in in Hq. destruct Hq as (row & Hin & Hrow).
    apply In_nth_error in Hin. destruct Hin as [i Hi].
    assert (Hi8 : i < length (firstn 8 q_rows)).
    { apply nth_error_Some. rewrite Hi. discriminate. }
    rewrite length_firstn in Hi8.
    exists i, row. split; [lia|]. split; [|exact Hrow].
    rewrite nth_error_firstn in Hi.
    destruct (Nat.ltb_spec i 8); [exact Hi | discriminate].
  - lia.
  - intros (row & Hin & Hbad).
    assert (0 < length (filter malformed (firstn 8 q_rows))).
    { assert (Hf : In row (filter malformed (firstn 8 q_rows)))
        by (apply filter_In; split; assumption).
      destruct (filter malformed (firstn 8 q_rows)); [destruct Hf | simpl; lia]. }
    lia.
Qed.

Lemma quarterly_slice_precedes_filter_witness :
  exists data,
    fst (scrape_company_data (serve page_nine_quarters) acme []) = Some data /\
    length (quarterly_data data) < 8.
Proof.
  destruct (quarterly_slice_precedes_filter (serve page_nine_quarters) acme []
              page_nine_quarters _ _ nine_rows_one_short
              eq_refl eq_refl eq_refl eq_refl)
    as (data & Hdata & _ & _ & Hshort).
  exists data; split; [exact Hdata|].
  apply Hshort. exists (cells ["Sep 2022"; "398"]). split.
  - simpl; tauto.
  - reflexivity.
Defined.

(** Of the 9 rows only 7 are kept: the short third row is dropped and the
    well-formed ninth row is never read. *)
Example nine_rows_give_seven :
  option_map quarterly_data
    (fst (scrape_company_data (serve page_nine_quarters) acme [])) =
  Some (map quarter ["Mar 2022"; "Jun 2022"; "Dec 2022"; "Mar 2023";
                     "Jun 2023"; "Sep 2023"; "Dec 2023"]).
Proof. reflexivity. Qed.

(* ================================================================== *)
(** ** Dictionaries *)

Section DictFacts.

Context {V : Type}.
Implicit Types (d : Dict.dict V) (k : string) (v : V).

Lemma dict_get_set_same k v d : Dict.get k (Dict.set k v d) = Some v.
Proof.
  induction d as [|[k' v'] d IH]; simpl.
  - rewrite String.eqb_refl. reflexivity.
  - destruct (String.eqb_spec k k') as [->|Hne]; simpl.
    + rewrite String.eqb_refl. reflexivity.
    + destruct (String.eqb_spec k k'); [contradiction | exact IH].
Qed.

Lemma dict_get_set_other k k' v d :
  k <> k' -> Dict.get k' (Dict.set k v d) = Dict.get k' d.
Proof.
  intros Hne. induction d as [|[k0 v0] d IH]; simpl.
  - destruct (String.eqb_spec k' k); [congruence | reflexivity].
  - destruct (String.eqb_spec k k0) as [->|Hne0]; simpl.
    + destruct (String.eqb_spec k' k0); [congruence | reflexivity].
    + destruct (String.eqb_spec k' k0); [reflexivity | exact IH].
Qed.

Lemma dict_keys_set k v d :
  forall k', In k' (Dict.keys (Dict.set k v d)) <-> k' = k \/ In k' (Dict.keys d).
Proof.
  unfold Dict.keys. induction d as [|[k0 v0] d IH]; intros k'; simpl.
  - intuition.
  - destruct (String.eqb_spec k k0) as [->|Hne]; simpl.
    + intuition.
    + rewrite IH. intuition.
Qed.

(** Assignment keeps the keys distinct. *)
Lemma dict_set_NoDup k v d :
  NoDup (Dict.keys d) -> NoDup (Dict.keys (Dict.set k v d)).
Proof.
  induction d as [|[k0 v0] d IH]; simpl; intros Hnd.
  - constructor; [intros [] | constructor].
  - destruct (String.eqb_spec k k0) as [->|Hne]; simpl.
    + exact Hnd.
    + inversion Hnd as [|? ? Hnotin Hnd']; subst.
      constructor; [|apply IH, Hnd'].
      intros Hin. apply (dict_keys_set k v d) in Hin.
      destruct Hin as [->|Hin]; [congruence | contradiction].
Qed.

Lemma dict_get_In k v d :
  NoDup (Dict.keys d) -> In (k, v) d -> Dict.get k d = Some v.
Proof.
  induction d as [|[k0 v0] d IH]; simpl; intros Hnd Hin; [destruct Hin|].
  inversion Hnd as [|? ? Hnotin Hnd']; subst.
  destruct Hin as [Heq|Hin].
  - injection Heq as -> ->. rewrite String.eqb_refl. reflexivity.
  - destruct (String.eqb_spec k k0) as [->|Hne]; [|apply IH; assumption].
    exfalso. apply Hnotin. unfold Dict.keys.
    change k0 with (fst (k0, v)). apply in_map, Hin.
Qed.

End DictFacts.

(* ================================================================== *)
(** ** Classifying and storing a row *)

Lemma series_eqb_spec s s' : reflect (s = s') (series_eqb s s').
Proof. destruct s, s'; simpl; constructor; congruence. Qed.

Lemma classify_first_match label : classify label = first_match rules label.
Proof.
  unfold classify, rules, first_match.
  destruct (str_in "Sales" label || str_in "Revenue" label); [reflexivity|].
  destruct (str_in "Operating Profit" label || str_in "EBITDA" label); [reflexivity|].
  destruct (str_in "Net Profit" label); reflexivity.
Qed.

(** What [store] does to each series. *)
Lemma store_entry_series s d k v :
  series_of s (store_entry d (k, v)) =
  match classify k with
  | Some s' => if series_eqb s' s then Dict.set k v (series_of s d) else series_of s d
  | None => series_of s d
  end.
Proof.
  unfold store_entry, store, exec. simpl.
  destruct (classify k) as [[| |]|]; destruct s; reflexivity.
Qed.

Lemma store_entry_filed s d k v :
  classify k = Some s ->
  series_of s (store_entry d (k, v)) = Dict.set k v (series_of s d).
Proof.
  intros H. rewrite store_entry_series, H.
  destruct (series_eqb_spec s s); [reflexivity | congruence].
Qed.

(** Entries with other labels leave the value of [label] as it is. *)
Lemma fold_store_other_labels s label entries d :
  ~ In label (map fst entries) ->
  Dict.get label (series_of s (fold_left store_entry entries d)) =
  Dict.get label (series_of s d).
Proof.
  revert d; induction entries as [|[k v] es IH]; intros d Hnotin; simpl in *.
  - reflexivity.
  - rewrite IH by tauto. rewrite store_entry_series.
    destruct (classify k) as [s'|]; [|reflexivity].
    destruct (series_eqb s' s); [|reflexivity].
    apply dict_get_set_other. tauto.
Qed.

(** A label is never looked up in a series it is not classified into. *)
Lemma fold_store_other_series s label entries d :
  classify label <> Some s ->
  Dict.get label (series_of s (fold_left store_entry entries d)) =
  Dict.get label (series_of s d).
Proof.
  intros Hcls. revert d; induction entries as [|[k v] es IH]; intros d; simpl.
  - reflexivity.
  - rewrite IH. rewrite store_entry_series.
    destruct (classify k) as [s'|] eqn:Hk; [|reflexivity].
    destruct (series_eqb_spec s' s) as [->|]; [|reflexivity].
    apply dict_get_set_other. congruence.
Qed.

Lemma fold_store_NoDup s entries d :
  NoDup (Dict.keys (series_of s d)) ->
  NoDup (Dict.keys (series_of s (fold_left store_entry entries d))).
Proof.
  revert d; induction entries as [|[k v] es IH]; intros d Hnd; simpl.
  - exact Hnd.
  - apply IH. rewrite store_entry_series.
    destruct (classify k) as [s'|]; [|exact Hnd].
    destruct (series_eqb s' s); [apply dict_set_NoDup|]; exact Hnd.
Qed.

(** The series of the record are those the table block builds from the
    empty dictionaries. *)
Lemma extract_page_series s page company :
  series_of s (exec (extract_page page) (initial_data company)) =
  series_of s (fold_left store_entry (page_entries page) (initial_data company)).
Proof.
  unfold exec at 1. rewrite extract_page_run. cbn [snd].
  rewrite (extract_quarterly_preserves (series_of s));
    [|intros q []; destruct s; reflexivity].
  rewrite extract_table_data_exec.
  set (d1 := exec (extract_basic_info page) (initial_data company)).
  assert (Hd1 : forall s', series_of s' d1 = series_of s' (initial_data company)).
  { intros s'. apply (extract_basic_info_preserves (series_of s'));
      intros v []; destruct s'; reflexivity. }
  clearbody d1. revert d1 Hd1. generalize (initial_data company) as d0.
  induction (page_entries page) as [|[k v] es IH]; intros d0 d1 Hd1; simpl.
  - apply Hd1.
  - apply IH. intros s'. rewrite !store_entry_series, !Hd1. reflexivity.
Qed.

(** C3: for every label the rules are tried in the order Sales/Revenue,
    Operating Profit/EBITDA, Net Profit, margin (lower-cased), and the
    first that matches decides: a label is revenue exactly when it has
    "Sales" or "Revenue", profit exactly when it has neither but has
    "Operating Profit", "EBITDA" or "Net Profit", margin exactly when it
    has none of these but has "margin" in some letter case, and is not
    filed otherwise.  So a label containing both "Sales" and "margin" is
    classified as revenue: its row is stored in [revenue_data] under the
    label, [margin_data] is left as it was, and no record ever has the
    label as a key of [margin_data]. *)
Theorem sales_label_filed_under_revenue metric_name :
  classify metric_name = first_match rules metric_name /\
  (classify metric_name = Some Revenue <->
   str_in "Sales" metric_name = true \/ str_in "Revenue" metric_name = true) /\
  (classify metric_name = Some Profit <->
   (str_in "Sales" metric_name = false /\ str_in "Revenue" metric_name = false) /\
   (str_in "Operating Profit" metric_name = true \/
    str_in "EBITDA" metric_name = true \/
    str_in "Net Profit" metric_name = true)) /\
  (classify metric_name = Some Margin <->
   str_in "Sales" metric_name = false /\ str_in "Revenue" metric_name = false /\
   str_in "Operating Profit" metric_name = false /\
   str_in "EBITDA" metric_name = false /\
   str_in "Net Profit" metric_name = false /\
   str_in "margin" (lower metric_name) = true) /\
  (str_in "Sales" metric_name = true ->
   str_in "margin" (lower metric_name) = true ->
   classify metric_name = Some Revenue /\
   (forall row values data,
      read_row row = Ok (Some (metric_name, values)) ->
      exec (process_row row) data = set_revenue metric_name values data /\
      Dict.get metric_name (revenue_data (exec (process_row row) data)) = Some values /\
      margin_data (exec (process_row row) data) = margin_data data) /\
   (forall driver company tr data,
      fst (scrape_company_data driver company tr) = Some data ->
      Dict.get metric_name (margin_data data) = None)).
Proof.
  split; [apply classify_first_match|].
  split; [|split; [|split]].
  - unfold classify.
    destruct (str_in "Sales" metric_name), (str_in "Revenue" metric_name),
      (str_in "Operating Profit" metric_name), (str_in "EBITDA" metric_name),
      (str_in "Net Profit" metric_name), (str_in "margin" (lower metric_name));
      simpl; split; intros H; try discriminate; try reflexivity; try tauto;
      destruct H; discriminate.
  - unfold classify.
    destruct (str_in "Sales" metric_name), (str_in "Revenue" metric_name),
      (str_in "Operating Profit" metric_name), (str_in "EBITDA" metric_name),
      (str_in "Net Profit" metric_name), (str_in "margin" (lower metric_name));
      simpl; split; intros H; try discriminate; try reflexivity; try tauto;
      intuition discriminate.
  - unfold classify.
    destruct (str_in "Sales" metric_name), (str_in "Revenue" metric_name),
      (str_in "Operating Profit" metric_name), (str_in "EBITDA" metric_name),
      (str_in "Net Profit" metric_name), (str_in "margin" (lower metric_name));
      simpl; split; intros H; try discriminate; try reflexivity; try tauto;
      intuition discriminate.
  - intros Hsales Hmargin.
    assert (Hcls : classify metric_name = Some Revenue).
    { unfold classify. rewrite Hsales. reflexivity. }
    split; [exact Hcls|]. split.
    + intros row values data Hrow.
      assert (Hexec : exec (process_row row) data = set_revenue metric_name values data).
      { rewrite process_row_exec. unfold row_entries. rewrite Hrow. simpl.
        unfold store_entry, store, exec. simpl. rewrite Hcls. reflexivity. }
      rewrite Hexec. split; [reflexivity|]. split; [|reflexivity].
      simpl. apply dict_get_set_same.
    + intros driver company tr data.
      rewrite scrape_company_data_run.
      destruct (driver_get driver (url company)) as [page|]; simpl; [|discriminate].
      intros H; injection H as <-.
      change (Dict.get metric_name
                (series_of Margin (exec (extract_page page) (initial_data company))) = None).
      rewrite extract_page_series, fold_store_other_series; [reflexivity|].
      rewrite Hcls. discriminate.
Qed.

Lemma sales_label_filed_under_revenue_witness :
  exec (process_row sales_margin_row) (initial_data acme) =
  set_revenue "Sales margin %" ["12%"; "14%"] (initial_data acme).
Proof.
  destruct (sales_label_filed_under_revenue "Sales margin %")
    as (_ & _ & _ & _ & Hboth).
  destruct (Hboth eq_refl eq_refl) as (_ & Hrow & _).
  apply (Hrow sales_margin_row ["12%"; "14%"] (initial_data acme) eq_refl).
Defined.

(** Each rule yields to the rules before it. *)
Example rule_order_on_labels :
  classify "Sales margin %" = Some Revenue /\
  classify "Revenue from Operating Profit" = Some Revenue /\
  classify "EBITDA margin" = Some Profit /\
  classify "Net Profit margin" = Some Profit /\
  classify "OPM MARGIN %" = Some Margin /\
  classify "Interest" = None.
Proof. repeat split; reflexivity. Qed.

(* ================================================================== *)
(** ** The values of a row *)

Lemma cell_values_texts rest texts :
  Forall2 (fun c t => text c = Ok t) rest texts ->
  cell_values rest = Ok (map strip texts).
Proof.
  induction 1 as [|c t rest texts Hc _ IH]; simpl; [reflexivity|].
  unfold text_strip. rewrite Hc. simpl. rewrite IH. reflexivity.
Qed.

Lemma read_row_cells row c0 rest label values :
  find_td row = Ok (c0 :: rest) -> rest <> [] ->
  text c0 = Ok label -> cell_values rest = Ok values ->
  read_row row = Ok (Some (strip label, values)).
Proof.
  intros Hcs Hrest Hlabel Hvalues. unfold read_row. rewrite Hcs.
  destruct rest as [|c1 rest]; [congruence|].
  cbn [rbind length Nat.ltb Nat.leb index nth_error tl].
  unfold text_strip at 1. rewrite Hlabel. cbn [rbind].
  rewrite Hvalues. reflexivity.
Qed.

(** C7: a row with fewer than 2 cells is skipped and changes no series.
    A row whose label is classified is stored under its label with the
    texts of all cells after the first, in column order. *)
Theorem row_values_are_remaining_cells row cs data :
  find_td row = Ok cs ->
  (length cs < 2 -> exec (process_row row) data = data) /\
  (forall c0 rest label texts s,
     cs = c0 :: rest -> rest <> [] ->
     text c0 = Ok label ->
     Forall2 (fun c t => text c = Ok t) rest texts ->
     classify (strip label) = Some s ->
     Dict.get (strip label) (series_of s (exec (process_row row) data))
       = Some (map strip texts)).
Proof.
  intros Hcs. split.
  - intros Hlen. rewrite process_row_exec. unfold row_entries, read_row.
    rewrite Hcs. simpl. apply Nat.ltb_lt in Hlen. rewrite Hlen. reflexivity.
  - intros c0 rest label texts s -> Hrest Hlabel Htexts Hcls.
    rewrite process_row_exec. unfold row_entries.
    rewrite (read_row_cells _ _ _ _ _ Hcs Hrest Hlabel (cell_values_texts _ _ Htexts)).
    cbn [fold_left].
    rewrite (store_entry_filed s _ _ _ Hcls). apply dict_get_set_same.
Qed.

Lemma row_values_are_remaining_cells_witness :
  Dict.get "Net Sales"
    (revenue_data (exec (process_row net_sales_row) (initial_data acme)))
  = Some ["100"; "120"; "140"].
Proof.
  destruct (row_values_are_remaining_cells net_sales_row
              (map elem ["Net Sales"; "100"; "120"; "140"]) (initial_data acme) eq_refl)
    as [_ Hstored].
  apply (Hstored (elem "Net Sales") (map elem ["100"; "120"; "140"])
           "Net Sales" ["100"; "120"; "140"] Revenue eq_refl).
  - discriminate.
  - reflexivity.
  - repeat constructor.
  - reflexivity.
Defined.

(** The two scenarios, run. *)
Example net_sales_row_stored :
  exec (process_row net_sales_row) (initial_data acme) =
  set_revenue "Net Sales" ["100"; "120"; "140"] (initial_data acme).
Proof. reflexivity. Qed.

Example label_only_row_skipped :
  exec (process_row label_only_row) (initial_data acme) = initial_data acme.
Proof. reflexivity. Qed.

(* ================================================================== *)
(** ** A label that occurs more than once *)

(** C9: each series holds one value sequence per label, that of the last
    row with the label in page order. *)
Theorem last_occurrence_wins driver company tr page :
  driver_get driver (url company) = Ok page ->
  exists data,
    fst (scrape_company_data driver company tr) = Some data /\
    (forall s, NoDup (Dict.keys (series_of s data))) /\
    (forall s label values before after,
       page_entries page = before ++ (label, values) :: after ->
       ~ In label (map fst after) ->
       classify label = Some s ->
       Dict.get label (series_of s data) = Some values /\
       (forall values', In (label, values') (series_of s data) -> values' = values)).
Proof.
  intros Hget. rewrite scrape_company_data_run, Hget. cbn [fst].
  eexists; split; [reflexivity|].
  assert (Hnd : forall s, NoDup (Dict.keys
            (series_of s (exec (extract_page page) (initial_data company))))).
  { intros s. rewrite extract_page_series. apply fold_store_NoDup.
    destruct s; constructor. }
  split; [exact Hnd|].
  intros s label values before after Hentries Hlast Hcls.
  assert (Hget' : Dict.get label
            (series_of s (exec (extract_page page) (initial_data company)))
          = Some values).
  { rewrite extract_page_series, Hentries, fold_left_app. simpl.
    rewrite (fold_store_other_labels _ _ _ _ Hlast).
    rewrite (store_entry_filed s _ _ _ Hcls). apply dict_get_set_same. }
  split; [exact Hget'|].
  intros values' Hin. apply (dict_get_In _ _ _ (Hnd s)) in Hin. congruence.
Qed.

Lemma last_occurrence_wins_witness :
  exists data,
    fst (scrape_company_data (serve page_net_profit_twice) acme []) = Some data /\
    Dict.get "Net Profit" (profit_data data) = Some ["11"; "13"].
Proof.
  destruct (last_occurrence_wins (serve page_net_profit_twice) acme []
              page_net_profit_twice eq_refl)
    as (data & Hdata & _ & Hlast).
  exists data; split; [exact Hdata|].
  apply (Hlast Profit "Net Profit" ["11"; "13"]
           [("Net Profit", ["10"; "12"]); ("OPM margin", ["9%"; "8%"])] []).
  - reflexivity.
  - simpl; tauto.
  - reflexivity.
Defined.

Example net_profit_twice_record :
  option_map (fun data => (profit_data data, margin_data data))
    (fst (scrape_company_data (serve page_net_profit_twice) acme [])) =
  Some ([("Net Profit", ["11"; "13"])], [("OPM margin", ["9%"; "8%"])]).
Proof. reflexivity. Qed.

(* ================================================================== *)
(** ** The list collector *)

Lemma scrape_watchlist_companies_run driver u tr :
  scrape_watchlist_companies driver u tr =
  (yields driver u, if truthy u then tr ++ [EvGet u] else tr).
Proof.
  unfold yields, scrape_watchlist_companies.
  destruct (truthy u); simpl; [|reflexivity].
  destruct (_ <- driver_get driver u;; _)%result; reflexivity.
Qed.

Lemma add_companies_app l1 l2 st :
  add_companies (l1 ++ l2) st = add_companies l2 (add_companies l1 st).
Proof.
  revert st; induction l1 as [|c l1 IH]; intros [all_companies seen]; simpl.
  - reflexivity.
  - destruct (mem (name c) seen); simpl; apply IH.
Qed.

Lemma collect_watchlists_run driver watchlists st tr :
  collect_watchlists driver watchlists st tr =
  (add_companies (listed driver watchlists) st,
   tr ++ map EvGet (filter truthy (map snd watchlists))).
Proof.
  revert st tr; induction watchlists as [|[label u] ws IH]; intros st tr; simpl.
  - rewrite app_nil_r. reflexivity.
  - unfold listed. simpl. rewrite add_companies_app.
    rewrite scrape_watchlist_companies_run.
    destruct (truthy u) eqn:Hu.
    + rewrite IH. simpl. rewrite <- app_assoc. reflexivity.
    + rewrite IH.
      replace (yields driver u) with (@nil Company); [reflexivity|].
      unfold yields, scrape_watchlist_companies. rewrite Hu. reflexivity.
Qed.

Lemma filter_filter {X} (p q : X -> bool) l :
  filter p (filter q l) = filter (fun x => q x && p x) l.
Proof.
  induction l as [|x l IH]; simpl; [reflexivity|].
  destruct (q x); simpl; [destruct (p x)|]; rewrite IH; reflexivity.
Qed.

(** The loop adds, behind what it has, the first occurrences of the names
    it has not seen. *)
Lemma add_companies_keep_first l all_companies seen :
  fst (add_companies l (all_companies, seen)) =
  all_companies ++ filter (fun d => negb (mem (name d) seen)) (keep_first l).
Proof.
  revert all_companies seen; induction l as [|c l IH]; intros all_companies seen; simpl.
  - rewrite app_nil_r. reflexivity.
  - destruct (mem (name c) seen) eqn:Hc; simpl; rewrite IH.
    + f_equal. rewrite filter_filter. apply filter_ext. intros d.
      destruct (String.eqb_spec (name d) (name c)) as [Heq|]; [|reflexivity].
      rewrite Heq, Hc. reflexivity.
    + rewrite <- app_assoc. simpl. f_equal. f_equal.
      rewrite filter_filter. apply filter_ext. intros d.
      unfold mem. simpl. rewrite negb_orb. reflexivity.
Qed.

Lemma get_all_watchlist_companies_run driver watchlists tr :
  get_all_watchlist_companies driver watchlists tr =
  (keep_first (listed driver watchlists),
   tr ++ map EvGet (filter truthy (map snd watchlists))).
Proof.
  unfold get_all_watchlist_companies. rewrite collect_watchlists_run.
  rewrite add_companies_keep_first. simpl. f_equal.
  induction (keep_first _) as [|c l IH]; simpl; congruence.
Qed.

Lemma keep_first_names l n :
  In n (map name (keep_first l)) <-> In n (map name l).
Proof.
  induction l as [|d l IH]; simpl; [tauto|]. split.
  - intros [Heq|Hin]; [left; exact Heq|]. right. apply IH.
    apply in_map_iff in Hin. destruct Hin as (c & <- & Hc).
    apply filter_In in Hc. apply in_map, Hc.
  - intros [Heq|Hin]; [left; exact Heq|].
    destruct (string_dec (name d) n) as [Hdn|Hdn]; [left; exact Hdn|]. right.
    apply IH, in_map_iff in Hin. destruct Hin as (c & <- & Hc).
    apply in_map, filter_In. split; [exact Hc|].
    destruct (String.eqb_spec (name c) (name d)); [congruence | reflexivity].
Qed.

Lemma NoDup_map_filter {X Y} (f : X -> Y) (p : X -> bool) l :
  NoDup (map f l) -> NoDup (map f (filter p l)).
Proof.
  induction l as [|x l IH]; simpl; intros Hnd; [constructor|].
  inversion Hnd as [|? ? Hnotin Hnd']; subst.
  destruct (p x); simpl; [|apply IH, Hnd'].
  constructor; [|apply IH, Hnd'].
  intros Hin. apply Hnotin. apply in_map_iff in Hin.
  destruct Hin as (y & Hy & Hin). apply filter_In in Hin.
  rewrite <- Hy. apply in_map, Hin.
Qed.

Lemma keep_first_NoDup l : NoDup (map name (keep_first l)).
Proof.
  induction l as [|d l IH]; simpl; constructor.
  - intros Hin. apply in_map_iff in Hin. destruct Hin as (c & Hname & Hc).
    apply filter_In in Hc. destruct Hc as [_ Hne].
    rewrite Hname, String.eqb_refl in Hne. discriminate.
  - apply NoDup_map_filter, IH.
Qed.

Lemma keep_first_first_named l c :
  In c (keep_first l) -> first_named (name c) l = Some c.
Proof.
  unfold first_named. induction l as [|d l IH]; simpl; [tauto|].
  intros [->|Hin]; [rewrite String.eqb_refl; reflexivity|].
  apply filter_In in Hin. destruct Hin as [Hin Hne].
  destruct (String.eqb_spec (name d) (name c)) as [Heq|_].
  - rewrite Heq, String.eqb_refl in Hne. discriminate.
  - apply IH, Hin.
Qed.

(** C2: the output of [get_all_watchlist_companies] has every name the
    watchlists yield, each once; the company kept for a name is the first
    with that name in list order then row order, and the kept companies
    stand in that order. *)
Theorem watchlists_deduplicated_first_wins driver watchlists tr :
  let all := listed driver watchlists in
  let out := fst (get_all_watchlist_companies driver watchlists tr) in
  NoDup (map name out) /\
  (forall n, In n (map name out) <-> In n (map name all)) /\
  (forall c, In c out -> first_named (name c) all = Some c) /\
  out = keep_first all.
Proof.
  rewrite get_all_watchlist_companies_run. simpl.
  split; [apply keep_first_NoDup|].
  split; [intros n; apply keep_first_names|].
  split; [intros c; apply keep_first_first_named | reflexivity].
Qed.

(** The scenario: A = [Acme, Globex], B = [Globex, Initech]. *)
Example watchlists_A_B_collected :
  listed two_watchlists watchlists_A_B =
    [ {| name := "Acme"; url := "/company/ACME/" |};
      {| name := "Globex"; url := "/company/GLOBEX/" |};
      {| name := "Globex"; url := "/company/GLOBEX/consolidated/" |};
      {| name := "Initech"; url := "/company/INITECH/" |} ] /\
  get_all_watchlist_companies two_watchlists watchlists_A_B [] =
    ([ {| name := "Acme"; url := "/company/ACME/" |};
       {| name := "Globex"; url := "/company/GLOBEX/" |};
       {| name := "Initech"; url := "/company/INITECH/" |} ],
     [ EvGet "https://www.screener.in/watchlist/A/";
       EvGet "https://www.screener.in/watchlist/B/" ]).
Proof. split; reflexivity. Qed.

(* ================================================================== *)
(** ** The run *)

Lemma listed_no_urls driver watchlists :
  forallb (fun wl => negb (truthy (snd wl))) watchlists = true ->
  listed driver watchlists = [].
Proof.
  rewrite forallb_forall. intros H. apply flat_map_nil. intros [label u] Hin.
  specialize (H _ Hin). simpl in *.
  unfold yields, scrape_watchlist_companies. rewrite H. reflexivity.
Qed.

(** C8, as the program has it: when the watchlists yield no company (in
    particular when no watchlist has an address), the run stops with exit
    status 0, not with a failure status: after the login it has loaded
    the watchlist pages only, it calls neither publisher, and it closes
    the browser. *)
Theorem no_companies_exits_with_status_zero e driver :
  missing e = [] ->
  setup_selenium e = Ok driver ->
  login_to_screener e = true ->
  listed driver (WATCHLISTS e) = [] ->
  main e = (0, [EvLogin] ++ map EvGet (filter truthy (map snd (WATCHLISTS e)))
                 ++ [EvQuit]) /\
  (forall u, In (EvGet u) (snd (main e)) -> In u (map snd (WATCHLISTS e))) /\
  (forall all_data, ~ In (EvSaveSheets all_data) (snd (main e)) /\
                    ~ In (EvCreateExcel all_data) (snd (main e))).
Proof.
  intros Hmissing Hsetup Hlogin Hnone.
  assert (Hmain : main e =
    (0, [EvLogin] ++ map EvGet (filter truthy (map snd (WATCHLISTS e))) ++ [EvQuit])).
  { unfold main. rewrite Hmissing, Hsetup, Hlogin. cbn [negb].
    rewrite get_all_watchlist_companies_run, Hnone. cbn [keep_first].
    rewrite <- app_assoc. reflexivity. }
  split; [exact Hmain|]. rewrite Hmain. cbn [snd].
  assert (Hin : forall ev,
            In ev ([EvLogin] ++ map EvGet (filter truthy (map snd (WATCHLISTS e)))
                     ++ [EvQuit]) ->
            ev = EvLogin \/ ev = EvQuit \/
            exists u, ev = EvGet u /\ In u (map snd (WATCHLISTS e))).
  { intros ev Hev. apply in_app_or in Hev. destruct Hev as [[<-|[]]|Hev]; [tauto|].
    apply in_app_or in Hev. destruct Hev as [Hev|[<-|[]]]; [|tauto].
    apply in_map_iff in Hev. destruct Hev as (u & <- & Hu).
    apply filter_In in Hu. right; right. exists u. tauto. }
  split.
  - intros u Hu. destruct (Hin _ Hu) as [H|[H|(u' & H & Hu')]]; try discriminate.
    injection H as ->. exact Hu'.
  - intros all_data. split; intros Hev;
      destruct (Hin _ Hev) as [H|[H|(u' & H & _)]]; discriminate.
Qed.

Lemma no_companies_exits_with_status_zero_witness :
  main env_no_watchlists = (0, [EvLogin; EvQuit]).
Proof.
  apply (no_companies_exits_with_status_zero env_no_watchlists
           (serve unreadable_page) eq_refl eq_refl eq_refl).
  apply listed_no_urls. reflexivity.
Defined.

(** C8, as stated, fails: with no watchlist address configured the run
    ends with exit status 0, the status of a successful run. *)
Lemma no_companies_is_not_a_failure :
  listed (serve unreadable_page) (WATCHLISTS env_no_watchlists) = [] /\
  fst (main env_no_watchlists) = 0.
Proof. split; reflexivity. Qed.

(** The other early exits end with status 1: here companies are found
    but no page of theirs loads. *)
Example no_records_exits_with_status_one :
  main env_no_page_loads =
  (1, [ EvLogin;
        EvGet "https://www.screener.in/watchlist/A/";
        EvGet "https://www.screener.in/watchlist/B/";
        EvGet "/company/ACME/";
        EvGet "/company/GLOBEX/";
        EvGet "/company/INITECH/";
        EvQuit ]).
Proof. reflexivity. Qed.

(* ================================================================== *)
(** ** Text operations *)

Lemma prefix_append n b : prefix n (n ++ b)%string = true.
Proof.
  induction n as [|c n IH]; simpl; [destruct b; reflexivity|].
  destruct (ascii_dec c c); [exact IH | contradiction].
Qed.

Lemma prefix_split n h :
  prefix n h = true -> exists b, h = (n ++ b)%string.
Proof.
  revert h; induction n as [|c n IH]; intros h H.
  - exists h; reflexivity.
  - destruct h as [|c' h]; simpl in H; [discriminate|].
    destruct (ascii_dec c c') as [<-|]; [|discriminate].
    destruct (IH h H) as [b ->]. exists b; reflexivity.
Qed.

(** [str_in] is the substring test. *)
Lemma str_in_spec n h :
  str_in n h = true <-> exists a b, h = (a ++ n ++ b)%string.
Proof.
  split.
  - induction h as [|c h IH]; cbn [str_in]; rewrite orb_true_iff; intros [H|H].
    + apply prefix_split in H. destruct H as [b ->]. exists EmptyString, b; reflexivity.
    + discriminate.
    + apply prefix_split in H. destruct H as [b ->]. exists EmptyString, b; reflexivity.
    + destruct (IH H) as (a & b & ->). exists (String c a), b; reflexivity.
  - intros (a & b & ->). induction a as [|c a IH]; simpl.
    + pose proof (prefix_append n b) as Hp.
      destruct (n ++ b)%string; cbn [str_in]; rewrite Hp; reflexivity.
    + rewrite IH. apply orb_true_r.
Qed.

Lemma lower_append a b : lower (a ++ b) = (lower a ++ lower b)%string.
Proof. induction a as [|c a IH]; simpl; [reflexivity | rewrite IH; reflexivity]. Qed.

(** A substring of a text without capital letters has none either. *)
Lemma str_in_lower_fixed n h :
  lower h = h -> str_in n h = true -> lower n = n.
Proof.
  intros Hh Hin. apply str_in_spec in Hin. destruct Hin as (a & b & ->).
  rewrite !lower_append in Hh.
  revert Hh. induction a as [|c a IH]; simpl.
  - clear. revert b. induction n as [|c n IH]; intros b; simpl; [reflexivity|].
    intros H. injection H as Hc Hn. rewrite Hc, (IH b Hn). reflexivity.
  - intros H. injection H as _ H. exact (IH H).
Qed.

Section SpacesFacts.

Variable sp1 : ascii -> bool.
Variable sp2 : ascii -> ascii -> bool.
Variable sp3 : ascii -> ascii -> ascii -> bool.

(** What is left after dropping does not start with whitespace. *)
Lemma drop_spaces_starts l :
  starts_with sp1 sp2 sp3 (drop_spaces sp1 sp2 sp3 l) = false.
Proof.
  assert (H : forall n l, length l <= n ->
                starts_with sp1 sp2 sp3 (drop_spaces sp1 sp2 sp3 l) = false).
  { clear l. induction n as [|n IH]; intros l Hlen.
    - destruct l; [reflexivity | simpl in Hlen; lia].
    - destruct l as [|c1 l1]; [reflexivity|]. simpl in Hlen.
      cbn [drop_spaces]. destruct (sp1 c1) eqn:E1; [apply IH; lia|].
      destruct l1 as [|c2 l2]; [simpl; rewrite E1; reflexivity|]. simpl in Hlen.
      destruct (sp2 c1 c2) eqn:E2; [apply IH; lia|].
      destruct l2 as [|c3 l3]; [simpl; rewrite E1, E2; reflexivity|]. simpl in Hlen.
      destruct (sp3 c1 c2 c3) eqn:E3; [apply IH; lia|].
      simpl. rewrite E1, E2, E3. reflexivity. }
  apply (H (length l)). lia.
Qed.

(** Dropping removes bytes from the front only. *)
Lemma drop_spaces_suffix l :
  exists q, l = q ++ drop_spaces sp1 sp2 sp3 l.
Proof.
  assert (H : forall n l, length l <= n ->
                exists q, l = q ++ drop_spaces sp1 sp2 sp3 l).
  { clear l. induction n as [|n IH]; intros l Hlen.
    - destruct l; [exists []; reflexivity | simpl in Hlen; lia].
    - destruct l as [|c1 l1]; [exists []; reflexivity|]. simpl in Hlen.
      cbn [drop_spaces]. destruct (sp1 c1).
      { destruct (IH l1) as [q Hq]; [lia|]. exists (c1 :: q). simpl. congruence. }
      destruct l1 as [|c2 l2]; [exists []; reflexivity|]. simpl in Hlen.
      destruct (sp2 c1 c2).
      { destruct (IH l2) as [q Hq]; [lia|]. exists (c1 :: c2 :: q). simpl. congruence. }
      destruct l2 as [|c3 l3]; [exists []; reflexivity|]. simpl in Hlen.
      destruct (sp3 c1 c2 c3); [|exists []; reflexivity].
      destruct (IH l3) as [q Hq]; [lia|]. exists (c1 :: c2 :: c3 :: q). simpl. congruence. }
  apply (H (length l)). lia.
Qed.

(** A sequence that does not start with whitespace has no prefix that
    does. *)
Lemma starts_with_prefix p q :
  starts_with sp1 sp2 sp3 (p ++ q) = false -> starts_with sp1 sp2 sp3 p = false.
Proof.
  destruct p as [|c1 [|c2 [|c3 p]]]; simpl; try reflexivity.
  - destruct (sp1 c1); [discriminate | reflexivity].
  - destruct (sp1 c1); [discriminate|]. simpl.
    destruct (sp2 c1 c2); [discriminate | reflexivity].
  - tauto.
Qed.

End SpacesFacts.

(** What [strip] returns has no whitespace character at either end. *)
Lemma strip_trimmed s : trimmed (strip s).
Proof.
  unfold trimmed, starts_with_space, ends_with_space, strip, rstrip, lstrip.
  rewrite !list_ascii_of_string_of_list_ascii.
  set (L := drop_spaces is_space is_space2 is_space3 (list_ascii_of_string s)).
  split.
  - destruct (drop_spaces_suffix is_space is_space2_rev is_space3_rev (rev L))
      as [q Hq].
    apply (starts_with_prefix _ _ _ _ (rev q)).
    rewrite <- rev_app_distr, <- Hq, rev_involutive.
    apply drop_spaces_starts.
  - rewrite rev_involutive. apply drop_spaces_starts.
Qed.

Lemma text_strip_trimmed e v : text_strip e = Ok v -> trimmed v.
Proof.
  unfold text_strip. destruct (text e) as [t|]; simpl; [|discriminate].
  intros H; injection H as <-. apply strip_trimmed.
Qed.

(* ================================================================== *)
(** ** Labels and letter case *)

(** X1: the rules for revenue and profit need capital letters.  A label
    written without capitals is filed under the margin series when it
    contains "margin", and ignored otherwise. *)
Theorem labels_without_capitals_match_margin_only label :
  lower label = label ->
  classify label = if str_in "margin" label then Some Margin else None.
Proof.
  intros Hlow.
  assert (Hno : forall needle, lower needle <> needle -> str_in needle label = false).
  { intros needle Hneedle. destruct (str_in needle label) eqn:E; [|reflexivity].
    exfalso. apply Hneedle. exact (str_in_lower_fixed _ _ Hlow E). }
  unfold classify. rewrite Hlow.
  rewrite (Hno "Sales"), (Hno "Revenue"), (Hno "Operating Profit"),
    (Hno "EBITDA"), (Hno "Net Profit") by (cbv; discriminate).
  reflexivity.
Qed.

Lemma labels_without_capitals_match_margin_only_witness :
  classify "net sales growth" = None.
Proof.
  apply (labels_without_capitals_match_margin_only "net sales growth" eq_refl).
Defined.

(** X2: the margin rule does not look at letter case: a label containing
    "margin" in any mix of capitals and small letters is never ignored.
    It is filed under the series of the first of the three earlier rules
    that matches it, and under the margin series when none does. *)
Theorem margin_in_any_case_is_filed a m b :
  lower m = "margin" ->
  let label := (a ++ m ++ b)%string in
  classify label =
    (if str_in "Sales" label || str_in "Revenue" label then Some Revenue
     else if str_in "Operating Profit" label || str_in "EBITDA" label
          || str_in "Net Profit" label then Some Profit
     else Some Margin) /\
  (str_in "Sales" label = false -> str_in "Revenue" label = false ->
   str_in "Operating Profit" label = false -> str_in "EBITDA" label = false ->
   str_in "Net Profit" label = false ->
   classify label = Some Margin).
Proof.
  intros Hm label.
  assert (Hin : str_in "margin" (lower label) = true).
  { unfold label. rewrite !lower_append, Hm. apply str_in_spec. eauto. }
  unfold classify. rewrite Hin. split.
  - destruct (str_in "Sales" label || str_in "Revenue" label); [reflexivity|].
    destruct (str_in "Operating Profit" label), (str_in "EBITDA" label),
      (str_in "Net Profit" label); reflexivity.
  - intros -> -> -> -> ->. reflexivity.
Qed.

Lemma margin_in_any_case_is_filed_witness :
  classify "OPM MARGIN %" = Some Margin.
Proof.
  apply (margin_in_any_case_is_filed "OPM " "MARGIN" " %" eq_refl); reflexivity.
Defined.

(* ================================================================== *)
(** ** What the series of a record hold *)

Lemma fold_store_filed s entries d :
  series_of s (fold_left store_entry entries d) =
  fold_left (fun m entry => Dict.set (fst entry) (snd entry) m)
    (filed s entries) (series_of s d).
Proof.
  revert d; induction entries as [|[k v] es IH]; intros d; simpl; [reflexivity|].
  rewrite IH, store_entry_series.
  destruct (classify k) as [s'|]; [|reflexivity].
  destruct (series_eqb s' s); reflexivity.
Qed.

Lemma filed_classified s entries k v :
  In (k, v) (filed s entries) <-> In (k, v) entries /\ classify k = Some s.
Proof.
  unfold filed. rewrite filter_In. simpl. split; intros [Hin H]; split; try exact Hin.
  - destruct (classify k) as [s'|]; [|discriminate].
    destruct (series_eqb_spec s' s); [congruence | discriminate].
  - rewrite H. destruct (series_eqb_spec s s); [reflexivity | congruence].
Qed.

Lemma dict_set_In {V} k (v : V) d k' v' :
  In (k', v') (Dict.set k v d) -> (k', v') = (k, v) \/ In (k', v') d.
Proof.
  induction d as [|[k0 v0] d IH]; simpl.
  - intros [H|[]]; left; congruence.
  - destruct (String.eqb k k0); simpl.
    + intros [H|H]; [left; congruence | right; right; exact H].
    + intros [H|H]; [right; left; exact H|].
      destruct (IH H); [left | right; right]; assumption.
Qed.

Lemma fold_set_In {V} (entries : list (string * V)) d k v :
  In (k, v) (fold_left (fun m entry => Dict.set (fst entry) (snd entry) m) entries d) ->
  In (k, v) entries \/ In (k, v) d.
Proof.
  revert d; induction entries as [|[k0 v0] es IH]; intros d; simpl; [tauto|].
  intros H. destruct (IH _ H) as [Hin|Hin]; [tauto|].
  apply dict_set_In in Hin. destruct Hin as [Heq|Hin]; [left; left; congruence | tauto].
Qed.

(** X3: whatever a series of a returned record holds was read off a
    table row of the page, and its label is one the rules file under that
    very series; so no label is ever a key of two series. *)
Theorem series_hold_classified_rows driver company tr data s k v :
  fst (scrape_company_data driver company tr) = Some data ->
  In (k, v) (series_of s data) ->
  classify k = Some s /\
  exists page, driver_get driver (url company) = Ok page /\
               In (k, v) (page_entries page).
Proof.
  rewrite scrape_company_data_run.
  destruct (driver_get driver (url company)) as [page|]; simpl; [|discriminate].
  intros H; injection H as <-.
  rewrite extract_page_series, fold_store_filed. intros Hin.
  apply fold_set_In in Hin. destruct Hin as [Hin|Hin].
  - apply filed_classified in Hin. destruct Hin as [Hin Hcls].
    split; [exact Hcls|]. exists page. split; [reflexivity | exact Hin].
  - destruct s; destruct Hin.
Qed.

Lemma series_hold_classified_rows_witness :
  classify "Net Profit" = Some Profit /\
  exists page,
    driver_get (serve page_net_profit_twice) (url acme) = Ok page /\
    In ("Net Profit", ["11"; "13"]) (page_entries page).
Proof.
  apply (series_hold_classified_rows (serve page_net_profit_twice) acme []
           _ Profit "Net Profit" ["11"; "13"] eq_refl).
  simpl; tauto.
Defined.

Lemma dict_keys_set_order {V} k (v : V) d :
  Dict.keys (Dict.set k v d) =
  if mem k (Dict.keys d) then Dict.keys d else Dict.keys d ++ [k].
Proof.
  unfold Dict.keys, mem. induction d as [|[k0 v0] d IH]; simpl; [reflexivity|].
  destruct (String.eqb_spec k k0) as [->|]; simpl; [reflexivity|].
  rewrite IH. destruct (existsb _ _); reflexivity.
Qed.

Lemma fold_set_keys {V} (entries : list (string * V)) d :
  Dict.keys (fold_left (fun m entry => Dict.set (fst entry) (snd entry) m) entries d) =
  Dict.keys d ++
  filter (fun k => negb (mem k (Dict.keys d))) (first_occurrences (map fst entries)).
Proof.
  revert d; induction entries as [|[k v] es IH]; intros d; simpl.
  - rewrite app_nil_r. reflexivity.
  - rewrite IH, dict_keys_set_order.
    destruct (mem k (Dict.keys d)) eqn:Hk; simpl.
    + f_equal. rewrite filter_filter. apply filter_ext. intros k'.
      destruct (String.eqb_spec k' k) as [->|]; [rewrite Hk|]; reflexivity.
    + rewrite <- app_assoc. simpl. f_equal. f_equal.
      rewrite filter_filter. apply filter_ext. intros k'.
      unfold mem. rewrite existsb_app. simpl.
      rewrite orb_false_r, negb_orb, andb_comm. reflexivity.
Qed.

(** X4: the keys of each series stand in the order in which their labels
    first occur on the page, also when a later row replaces the values. *)
Theorem series_keys_in_page_order driver company tr page s :
  driver_get driver (url company) = Ok page ->
  exists data,
    fst (scrape_company_data driver company tr) = Some data /\
    Dict.keys (series_of s data) =
    first_occurrences (map fst (filed s (page_entries page))).
Proof.
  intros Hget. rewrite scrape_company_data_run, Hget. cbn [fst].
  eexists; split; [reflexivity|].
  rewrite extract_page_series, fold_store_filed, fold_set_keys.
  replace (Dict.keys (series_of s (initial_data company))) with (@nil string)
    by (destruct s; reflexivity).
  simpl. induction (first_occurrences _) as [|k l IH]; simpl; congruence.
Qed.

Lemma series_keys_in_page_order_witness :
  exists data,
    fst (scrape_company_data (serve page_net_profit_twice) acme []) = Some data /\
    Dict.keys (series_of Profit data) =
    first_occurrences
      (map fst (filed Profit (page_entries page_net_profit_twice))).
Proof.
  apply (series_keys_in_page_order (serve page_net_profit_twice) acme []
           page_net_profit_twice Profit eq_refl).
Defined.

(* ================================================================== *)
(** ** Stored texts *)

Lemma cell_values_trimmed l values :
  cell_values l = Ok values -> Forall trimmed values.
Proof.
  revert values; induction l as [|c l IH]; simpl; intros values H.
  - injection H as <-. constructor.
  - destruct (text_strip c) as [v|] eqn:Hv; simpl in H; [|discriminate].
    destruct (cell_values l) as [vs|]; simpl in H; [|discriminate].
    injection H as <-. constructor; [exact (text_strip_trimmed _ _ Hv) | auto].
Qed.

Lemma read_row_trimmed row k values :
  read_row row = Ok (Some (k, values)) -> trimmed k /\ Forall trimmed values.
Proof.
  unfold read_row. destruct (find_td row) as [cs|]; simpl; [|discriminate].
  destruct (length cs <? 2); [discriminate|].
  destruct (index cs 0) as [c0|]; simpl; [|discriminate].
  destruct (text_strip c0) as [k0|] eqn:Hk; simpl; [|discriminate].
  destruct (cell_values (tl cs)) as [vs|] eqn:Hvs; simpl; [|discriminate].
  intros H; injection H as <- <-.
  split; [exact (text_strip_trimmed _ _ Hk) | exact (cell_values_trimmed _ _ Hvs)].
Qed.

(** Every entry of the page was read off one of its rows. *)
Lemma page_entries_read page entry :
  In entry (page_entries page) -> exists row, read_row row = Ok (Some entry).
Proof.
  unfold page_entries. destruct (section_card_table page) as [tables|]; [|intros []].
  rewrite in_flat_map. intros (table & _ & Hin). unfold table_entries in Hin.
  destruct (_ <- find_thead_th table;; _)%result; [|destruct Hin].
  destruct (find_tbody_tr table) as [rows|]; [|destruct Hin].
  apply in_flat_map in Hin. destruct Hin as (row & _ & Hin).
  exists row. unfold row_entries in Hin.
  destruct (read_row row) as [[e|]|]; simpl in Hin; try tauto.
  destruct Hin as [->|[]]. reflexivity.
Qed.

(** X5: every text a returned record stores (scalar values, series
    labels and values, quarterly fields) has no whitespace at either
    end. *)
Theorem stored_texts_are_trimmed driver company tr data :
  fst (scrape_company_data driver company tr) = Some data ->
  (forall F v, scalar_of data F = Some v -> trimmed v) /\
  (forall s k values, In (k, values) (series_of s data) ->
     trimmed k /\ Forall trimmed values) /\
  (forall q, In q (quarterly_data data) ->
     trimmed (period q) /\ trimmed (sales q) /\ trimmed (profit q)).
Proof.
  rewrite scrape_company_data_run.
  destruct (driver_get driver (url company)) as [page|]; simpl; [|discriminate].
  intros H; injection H as <-. split; [|split].
  - intros F v. rewrite extract_page_scalar, extract_basic_info_scalar.
    assert (Hinit : scalar_of (initial_data company) F = None) by (destruct F; reflexivity).
    rewrite Hinit. destruct (forallb _ _); [|discriminate].
    unfold scalar_read.
    destruct (match F with FPrice => _ | _ => _ end) as [e|]; simpl; [|discriminate].
    destruct (text_strip e) as [t|] eqn:Ht; [|discriminate].
    intros Hv; injection Hv as <-. exact (text_strip_trimmed _ _ Ht).
  - intros s k values. rewrite extract_page_series, fold_store_filed. intros Hin.
    apply fold_set_In in Hin. destruct Hin as [Hin|Hin]; [|destruct s; destruct Hin].
    apply filed_classified in Hin. destruct Hin as [Hin _].
    apply page_entries_read in Hin. destruct Hin as [row Hrow].
    exact (read_row_trimmed _ _ _ Hrow).
  - intros q. rewrite extract_page_quarterly, kept_quarters_in.
    intros (row & _ & c0 & c1 & c2 & rest & _ & H0 & H1 & H2).
    repeat split; eapply text_strip_trimmed; eassumption.
Qed.

Lemma stored_texts_are_trimmed_witness :
  exists data,
    fst (scrape_company_data (serve page_padded) acme []) = Some data /\
    current_price data = Some "1520" /\
    trimmed "1520".
Proof.
  eexists. split; [reflexivity|]. split; [reflexivity|].
  destruct (stored_texts_are_trimmed (serve page_padded) acme []
              _ eq_refl) as [Hscalar _].
  apply (Hscalar FPrice "1520" eq_refl).
Defined.

(** The padding of the price is whitespace that [strip] removes, the
    no-break space and the em space included. *)
Example padded_price_is_stripped :
  starts_with_space (padded "1520") = true /\
  ends_with_space (padded "1520") = true /\
  strip (padded "1520") = "1520" /\
  strip nbsp = "" /\
  strip ("Acme" ++ em_space) = "Acme".
Proof. repeat split; reflexivity. Qed.

(* ================================================================== *)
(** ** Tables and blocks that fail *)

Lemma for_each_process_table tables d :
  for_each tables process_table d =
  (Ok tt, fold_left store_entry (flat_map table_entries tables) d).
Proof.
  unfold process_table. rewrite for_each_try. f_equal.
  rewrite fold_left_flat_map. apply fold_left_ext_in.
  intros s table _. apply (process_table_exec table s).
Qed.

(** X6: a table whose header cell cannot be read is passed over with all
    its rows, and the tables before and after it are processed as if it
    were not on the page. *)
Theorem table_without_header_is_skipped page page' before table after d :
  section_card_table page = Ok (before ++ table :: after) ->
  section_card_table page' = Ok (before ++ after) ->
  (th <- find_thead_th table ;; text_strip th)%result = Raised ->
  exec (extract_table_data page) d = exec (extract_table_data page') d.
Proof.
  intros Hp Hp' Hth. rewrite !extract_table_data_exec.
  unfold page_entries. rewrite Hp, Hp'. rewrite !flat_map_app. simpl.
  replace (table_entries table) with (@nil (string * list string)); [reflexivity|].
  unfold table_entries. rewrite Hth. reflexivity.
Qed.

Lemma table_without_header_is_skipped_witness :
  exec (extract_table_data page_headerless_table) (initial_data acme) =
  exec (extract_table_data page_no_table) (initial_data acme).
Proof.
  apply (table_without_header_is_skipped page_headerless_table page_no_table
           [] headerless_table [] (initial_data acme) eq_refl eq_refl eq_refl).
Defined.

(** X7: the three blocks of [scrape_company_data] do not affect one
    another: the scalar fields of the record depend on the four scalar
    elements only, the series on the tables only, the quarterly sequence
    on the quarterly section only. *)
Theorem blocks_are_isolated driver driver' company tr page page' :
  driver_get driver (url company) = Ok page ->
  driver_get driver' (url company) = Ok page' ->
  exists data data',
    fst (scrape_company_data driver company tr) = Some data /\
    fst (scrape_company_data driver' company tr) = Some data' /\
    ((forall F, scalar_read page F = scalar_read page' F) ->
     forall F, scalar_of data F = scalar_of data' F) /\
    (section_card_table page = section_card_table page' ->
     forall s, series_of s data = series_of s data') /\
    (section_quarters page = section_quarters page' ->
     quarterly_data data = quarterly_data data').
Proof.
  intros Hget Hget'. rewrite !scrape_company_data_run, Hget, Hget'. cbn [fst].
  eexists _, _. split; [reflexivity|]. split; [reflexivity|]. split; [|split].
  - intros Hsame F. rewrite !extract_page_scalar, !extract_basic_info_scalar.
    rewrite (Hsame F).
    replace (forallb (fun F0 => (rank F <? rank F0) || negb (is_raised (scalar_read page F0)))
               all_scalars)
      with (forallb (fun F0 => (rank F <? rank F0) || negb (is_raised (scalar_read page' F0)))
              all_scalars); [reflexivity|].
    clear -Hsame. induction all_scalars as [|G l IH]; simpl; [reflexivity|].
    rewrite (Hsame G), IH. reflexivity.
  - intros Hsame s. rewrite !extract_page_series. unfold page_entries.
    rewrite Hsame. reflexivity.
  - intros Hsame. rewrite !extract_page_quarterly. unfold quarter_rows.
    rewrite Hsame. reflexivity.
Qed.

Lemma blocks_are_isolated_witness :
  (exists data data',
     fst (scrape_company_data (serve page_full) acme []) = Some data /\
     fst (scrape_company_data (serve page_tables_only) acme []) = Some data' /\
     current_price data = Some "1520" /\ current_price data' = None /\
     revenue_data data = [("Net Sales", ["100"; "120"; "140"])] /\
     (forall s, series_of s data = series_of s data') /\
     quarterly_data data = [quarter "Mar 2022"] /\
     quarterly_data data = quarterly_data data') /\
  (exists data data'',
     fst (scrape_company_data (serve page_full) acme []) = Some data /\
     fst (scrape_company_data (serve page_scalars_only) acme []) = Some data'' /\
     revenue_data data'' = [] /\
     forall F, scalar_of data F = scalar_of data'' F).
Proof.
  split.
  - destruct (blocks_are_isolated (serve page_full) (serve page_tables_only)
                acme [] page_full page_tables_only eq_refl eq_refl)
      as (data & data' & H & H' & _ & Hseries & Hquarters).
    exists data, data'. split; [exact H|]. split; [exact H'|].
    injection H as <-. injection H' as <-.
    split; [reflexivity|]. split; [reflexivity|]. split; [reflexivity|].
    split; [apply Hseries; reflexivity|].
    split; [reflexivity | apply Hquarters; reflexivity].
  - destruct (blocks_are_isolated (serve page_full) (serve page_scalars_only)
                acme [] page_full page_scalars_only eq_refl eq_refl)
      as (data & data'' & H & H'' & Hscalars & _ & _).
    exists data, data''. split; [exact H|]. split; [exact H''|].
    injection H'' as <-.
    split; [reflexivity|]. apply Hscalars. intros F. reflexivity.
Defined.

(* ================================================================== *)
(** ** More on the list collector *)

Lemma watchlist_row_well_formed row c :
  watchlist_row row = Some c ->
  truthy (name c) = true /\ truthy (url c) = true /\ trimmed (name c).
Proof.
  unfold watchlist_row, rbind.
  destruct (find_td_a row) as [a|]; [|discriminate].
  destruct (text_strip a) as [n|] eqn:Hn; [|discriminate].
  destruct (href a) as [[u|]|]; try discriminate.
  destruct (truthy n) eqn:Htn; simpl; [|discriminate].
  destruct (truthy u) eqn:Htu; [|discriminate].
  intros H; injection H as <-. simpl.
  split; [exact Htn|]. split; [exact Htu | exact (text_strip_trimmed _ _ Hn)].
Qed.

Lemma watchlist_rows_In rows c :
  In c (watchlist_rows rows) -> exists row, In row rows /\ watchlist_row row = Some c.
Proof.
  induction rows as [|row rows IH]; simpl; [tauto|].
  destruct (watchlist_row row) as [c'|] eqn:E.
  - intros [<-|Hin]; [exists row; tauto|].
    destruct (IH Hin) as (r & Hr & Hc). exists r; tauto.
  - intros Hin. destruct (IH Hin) as (r & Hr & Hc). exists r; tauto.
Qed.

Lemma yields_well_formed driver u c :
  In c (yields driver u) ->
  truthy (name c) = true /\ truthy (url c) = true /\ trimmed (name c).
Proof.
  unfold yields, scrape_watchlist_companies.
  destruct (truthy u); simpl; [|tauto].
  destruct (_ <- driver_get driver u;; _)%result as [cs|] eqn:E; simpl; [|tauto].
  unfold rbind in E.
  destruct (driver_get driver u) as [page|]; [|discriminate].
  destruct (wait_table page); [|discriminate].
  destruct (table_tbody_tr page) as [rows|]; [|discriminate].
  injection E as <-. intros Hin.
  apply watchlist_rows_In in Hin. destruct Hin as (row & _ & Hrow).
  exact (watchlist_row_well_formed _ _ Hrow).
Qed.

Lemma keep_first_incl l c : In c (keep_first l) -> In c l.
Proof.
  induction l as [|d l IH]; simpl; [tauto|].
  intros [->|Hin]; [left; reflexivity|].
  apply filter_In in Hin. right. apply IH, Hin.
Qed.

(** X8: every company the list collector returns has a non-empty name
    with no whitespace at either end and a non-empty address. *)
Theorem collected_companies_are_well_formed driver watchlists tr c :
  In c (fst (get_all_watchlist_companies driver watchlists tr)) ->
  truthy (name c) = true /\ truthy (url c) = true /\ trimmed (name c).
Proof.
  rewrite get_all_watchlist_companies_run. simpl. intros Hin.
  apply keep_first_incl in Hin. unfold listed in Hin.
  apply in_flat_map in Hin. destruct Hin as ([label u] & _ & Hin).
  exact (yields_well_formed _ _ _ Hin).
Qed.

Lemma collected_companies_are_well_formed_witness :
  truthy "Acme" = true /\ truthy "/company/ACME/" = true /\ trimmed "Acme".
Proof.
  apply (collected_companies_are_well_formed padded_watchlist watchlist_A []
           {| name := "Acme"; url := "/company/ACME/" |}).
  left. reflexivity.
Defined.

(** Of the three rows of the padded watchlist the first gives Acme, the
    second has a name that is whitespace only and is passed over, the
    third is Acme again and is dropped as a duplicate. *)
Example padded_watchlist_collected :
  fst (get_all_watchlist_companies padded_watchlist watchlist_A []) =
  [ {| name := "Acme"; url := "/company/ACME/" |} ].
Proof. reflexivity. Qed.

(** X9: each watchlist with a non-empty address is loaded once, in
    configuration order, whether or not loading succeeds; a watchlist
    with an empty address is never loaded. *)
Theorem watchlists_are_loaded_in_order driver watchlists tr :
  snd (get_all_watchlist_companies driver watchlists tr) =
  tr ++ map EvGet (filter truthy (map snd watchlists)).
Proof. rewrite get_all_watchlist_companies_run. reflexivity. Qed.

Lemma listed_app driver w1 w2 :
  listed driver (w1 ++ w2) = listed driver w1 ++ listed driver w2.
Proof. unfold listed. apply flat_map_app. Qed.

(** X10: a watchlist whose page cannot be loaded, whose table does not
    show up in time or whose rows cannot be listed contributes nothing
    and stops nothing: the collector returns what it returns without that
    watchlist. *)
Theorem failed_watchlist_leaves_the_others driver before label u after tr :
  (page <- driver_get driver u ;;
   _ <- wait_table page ;;
   table_tbody_tr page)%result = Raised ->
  fst (get_all_watchlist_companies driver (before ++ (label, u) :: after) tr) =
  fst (get_all_watchlist_companies driver (before ++ after) tr).
Proof.
  intros Hfail. rewrite !get_all_watchlist_companies_run. simpl.
  rewrite !listed_app. f_equal. f_equal.
  change (listed driver ((label, u) :: after))
    with (yields driver u ++ listed driver after).
  replace (yields driver u) with (@nil Company); [reflexivity|].
  unfold yields, scrape_watchlist_companies.
  destruct (truthy u); simpl; [|reflexivity].
  unfold rbind in *.
  destruct (driver_get driver u) as [page|]; [|reflexivity].
  destruct (wait_table page); [|reflexivity].
  rewrite Hfail. reflexivity.
Qed.

Lemma failed_watchlist_leaves_the_others_witness :
  fst (get_all_watchlist_companies two_watchlists
         (watchlists_A_B ++ [("Old", "https://www.screener.in/watchlist/C/")]) []) =
  fst (get_all_watchlist_companies two_watchlists (watchlists_A_B ++ []) []).
Proof.
  apply (failed_watchlist_leaves_the_others two_watchlists watchlists_A_B
           "Old" "https://www.screener.in/watchlist/C/" [] [] eq_refl).
Defined.

Lemma keep_first_NoDup_id l : NoDup (map name l) -> keep_first l = l.
Proof.
  induction l as [|c l IH]; simpl; intros Hnd; [reflexivity|].
  inversion Hnd as [|? ? Hnotin Hnd']; subst. rewrite (IH Hnd'). f_equal.
  clear IH Hnd Hnd'. induction l as [|d l IHl]; simpl; [reflexivity|].
  simpl in Hnotin.
  destruct (String.eqb_spec (name d) (name c)) as [Heq|_]; simpl.
  - exfalso. apply Hnotin. left. exact Heq.
  - f_equal. apply IHl. tauto.
Qed.

(** X11: when the watchlists yield pairwise distinct names, nothing is
    dropped: the collector returns all yielded companies, in order. *)
Theorem distinct_names_are_all_kept driver watchlists tr :
  NoDup (map name (listed driver watchlists)) ->
  fst (get_all_watchlist_companies driver watchlists tr) = listed driver watchlists.
Proof.
  intros Hnd. rewrite get_all_watchlist_companies_run. simpl.
  apply keep_first_NoDup_id, Hnd.
Qed.

Lemma distinct_names_are_all_kept_witness :
  fst (get_all_watchlist_companies two_watchlists watchlist_A []) =
  listed two_watchlists watchlist_A.
Proof.
  apply (distinct_names_are_all_kept two_watchlists watchlist_A []).
  simpl. repeat constructor; simpl; intuition discriminate.
Defined.

(* ================================================================== *)
(** ** More on the batch orchestrator *)

Lemma scrape_loop_records driver companies tr :
  scrape_loop driver companies ([], 0) tr =
  ((records driver companies, length (records driver companies)),
   tr ++ map (fun c => EvGet (url c)) companies).
Proof.
  rewrite scrape_loop_run. simpl. f_equal. f_equal.
  unfold records. induction companies as [|c cs IH]; simpl; [reflexivity|].
  unfold succeeded at 1. destruct (extracted driver c); simpl; rewrite IH; reflexivity.
Qed.

Lemma scrape_all_companies_run driver companies tr :
  scrape_all_companies driver companies tr =
  (records driver companies, tr ++ map (fun c => EvGet (url c)) companies).
Proof. unfold scrape_all_companies. rewrite scrape_loop_records. reflexivity. Qed.

(** X12: the count of successes the loop keeps for its report is the
    number of records it returns. *)
Theorem success_count_is_number_of_records driver companies tr :
  snd (fst (scrape_loop driver companies ([], 0) tr)) =
  length (fst (scrape_all_companies driver companies tr)).
Proof. rewrite scrape_all_companies_run, scrape_loop_records. reflexivity. Qed.

(** X13: scraping a batch in two parts, the second from where the first
    left the log, gives the same records and the same log as scraping it
    in one go. *)
Theorem batch_splits driver l1 l2 tr :
  scrape_all_companies driver (l1 ++ l2) tr =
  (fst (scrape_all_companies driver l1 tr) ++
   fst (scrape_all_companies driver l2 (snd (scrape_all_companies driver l1 tr))),
   snd (scrape_all_companies driver l2 (snd (scrape_all_companies driver l1 tr)))).
Proof.
  rewrite !scrape_all_companies_run. simpl.
  unfold records. rewrite flat_map_app, map_app, app_assoc. reflexivity.
Qed.

Lemma records_In driver companies d :
  In d (records driver companies) ->
  exists c, In c companies /\ extracted driver c = Some d.
Proof.
  unfold records. rewrite in_flat_map. intros (c & Hc & Hd). exists c; split; [exact Hc|].
  destruct (extracted driver c) as [d'|]; simpl in Hd; [|tauto].
  destruct Hd as [->|[]]. reflexivity.
Qed.

Lemma extracted_identity driver c d :
  extracted driver c = Some d -> data_name d = name c /\ data_url d = url c.
Proof.
  rewrite extracted_run. destruct (driver_get driver (url c)) as [page|]; [|discriminate].
  intros H; injection H as <-. apply extract_page_identity.
Qed.

Lemma records_names driver companies :
  map data_name (records driver companies) =
  map name (filter (succeeded driver) companies).
Proof.
  unfold records. induction companies as [|c cs IH]; simpl; [reflexivity|].
  unfold succeeded at 1. destruct (extracted driver c) as [d|] eqn:E; simpl; [|exact IH].
  rewrite IH. f_equal. apply (extracted_identity _ _ _ E).
Qed.

(** X14: every record of the batch carries the name and the address of
    one of the input companies, and when the input names are pairwise
    distinct so are the names of the records. *)
Theorem batch_records_name_their_companies driver companies tr :
  let out := fst (scrape_all_companies driver companies tr) in
  (forall d, In d out ->
     exists c, In c companies /\ data_name d = name c /\ data_url d = url c) /\
  (NoDup (map name companies) -> NoDup (map data_name out)).
Proof.
  rewrite scrape_all_companies_run. simpl. split.
  - intros d Hd. apply records_In in Hd. destruct Hd as (c & Hc & Hd).
    exists c. split; [exact Hc | exact (extracted_identity _ _ _ Hd)].
  - intros Hnd. rewrite records_names. apply NoDup_map_filter, Hnd.
Qed.

(* ================================================================== *)
(** ** More on the run *)

(** The run once the configuration is complete, the browser is up and
    the login went through. *)
Lemma main_run e driver :
  missing e = [] -> setup_selenium e = Ok driver -> login_to_screener e = true ->
  main e =
  let companies := keep_first (listed driver (WATCHLISTS e)) in
  let tr := [EvLogin] ++ map EvGet (filter truthy (map snd (WATCHLISTS e))) in
  match companies with
  | [] => (0, tr ++ [EvQuit])
  | _ :: _ =>
      let tr' := tr ++ map (fun c => EvGet (url c)) companies in
      match records driver companies with
      | [] => (1, tr' ++ [EvQuit])
      | _ :: _ =>
          (0, tr' ++ [EvSaveSheets (records driver companies);
                      EvCreateExcel (records driver companies); EvQuit])
      end
  end.
Proof.
  intros Hmissing Hsetup Hlogin. unfold main.
  rewrite Hmissing, Hsetup, Hlogin. cbn [negb].
  rewrite get_all_watchlist_companies_run.
  destruct (keep_first (listed driver (WATCHLISTS e))) as [|c cs] eqn:Hcs; [reflexivity|].
  rewrite scrape_all_companies_run.
  destruct (records driver (c :: cs)); reflexivity.
Qed.

Lemma main_not_started e :
  missing e <> [] \/ setup_selenium e = Raised -> main e = (1, []).
Proof.
  unfold main. destruct (missing e); [|reflexivity].
  intros [H|H]; [congruence | rewrite H; reflexivity].
Qed.

Lemma main_login_failed e driver :
  missing e = [] -> setup_selenium e = Ok driver -> login_to_screener e = false ->
  main e = (1, [EvLogin; EvQuit]).
Proof. intros H1 H2 H3. unfold main. rewrite H1, H2, H3. reflexivity. Qed.

Lemma In_map_EvGet ev l : In ev (map EvGet l) -> exists u, ev = EvGet u.
Proof. rewrite in_map_iff. intros (u & <- & _). eauto. Qed.

Lemma In_map_EvGet_url ev (l : list Company) :
  In ev (map (fun c => EvGet (url c)) l) -> exists u, ev = EvGet u.
Proof. rewrite in_map_iff. intros (c & <- & _). eauto. Qed.

(** X15: once the browser has been set up it is closed at the end of the
    run, whichever way the run ends: the log starts with the login and
    has one [driver.quit()], as its last entry. *)
Theorem browser_is_always_closed e driver :
  missing e = [] ->
  setup_selenium e = Ok driver ->
  exists tr,
    snd (main e) = EvLogin :: tr ++ [EvQuit] /\
    ~ In EvQuit tr /\ ~ In EvLogin tr.
Proof.
  intros Hmissing Hsetup.
  destruct (login_to_screener e) eqn:Hlogin.
  2:{ rewrite (main_login_failed e driver Hmissing Hsetup Hlogin).
      exists []. simpl. tauto. }
  rewrite (main_run e driver Hmissing Hsetup Hlogin). cbv zeta.
  set (gets := map EvGet (filter truthy (map snd (WATCHLISTS e)))).
  set (companies := keep_first (listed driver (WATCHLISTS e))).
  assert (Hgets : forall ev, In ev gets -> ev <> EvQuit /\ ev <> EvLogin).
  { intros ev Hev. apply In_map_EvGet in Hev. destruct Hev as [u ->].
    split; discriminate. }
  assert (Hurls : forall ev, In ev (map (fun c => EvGet (url c)) companies) ->
                    ev <> EvQuit /\ ev <> EvLogin).
  { intros ev Hev. apply In_map_EvGet_url in Hev. destruct Hev as [u ->].
    split; discriminate. }
  destruct companies as [|c cs] eqn:Hcs.
  - exists gets. split; [reflexivity|].
    split; intros Hev; apply Hgets in Hev; tauto.
  - destruct (records driver (c :: cs)) as [|d ds] eqn:Hrec; cbn [snd].
    + exists (gets ++ map (fun c => EvGet (url c)) (c :: cs)).
      split; [rewrite <- !app_assoc; reflexivity|].
      split; intros Hev; apply in_app_or in Hev;
        destruct Hev as [Hev|Hev]; [apply Hgets in Hev | apply Hurls in Hev
                                   |apply Hgets in Hev | apply Hurls in Hev]; tauto.
    + exists (gets ++ map (fun c => EvGet (url c)) (c :: cs)
              ++ [EvSaveSheets (d :: ds); EvCreateExcel (d :: ds)]).
      split; [rewrite <- !app_assoc; reflexivity|].
      split; intros Hev; apply in_app_or in Hev;
        (destruct Hev as [Hev|Hev]; [apply Hgets in Hev; tauto|]);
        apply in_app_or in Hev;
        (destruct Hev as [Hev|Hev]; [apply Hurls in Hev; tauto|]);
        simpl in Hev; intuition discriminate.
Qed.

Lemma browser_is_always_closed_witness :
  exists tr,
    snd (main env_acme) = EvLogin :: tr ++ [EvQuit] /\
    ~ In EvQuit tr /\ ~ In EvLogin tr.
Proof.
  apply (browser_is_always_closed env_acme acme_site eq_refl eq_refl).
Defined.

(** X16: no page is loaded unless the configuration is complete, the
    browser could be set up and the login succeeded. *)
Theorem no_navigation_without_login e u :
  In (EvGet u) (snd (main e)) ->
  missing e = [] /\
  (exists driver, setup_selenium e = Ok driver) /\
  login_to_screener e = true.
Proof.
  intros Hin.
  destruct (missing e) as [|k ks] eqn:Hmissing.
  2:{ rewrite main_not_started in Hin by (left; rewrite Hmissing; discriminate).
      destruct Hin. }
  destruct (setup_selenium e) as [driver|] eqn:Hsetup.
  2:{ rewrite main_not_started in Hin by (right; exact Hsetup). destruct Hin. }
  destruct (login_to_screener e) eqn:Hlogin.
  - split; [reflexivity|]. split; [eauto | reflexivity].
  - rewrite (main_login_failed e driver Hmissing Hsetup Hlogin) in Hin.
    simpl in Hin. intuition discriminate.
Qed.

Lemma no_navigation_without_login_witness :
  missing env_acme = [] /\
  (exists driver, setup_selenium env_acme = Ok driver) /\
  login_to_screener env_acme = true.
Proof.
  apply (no_navigation_without_login env_acme "https://www.screener.in/watchlist/A/").
  simpl; tauto.
Defined.

Lemma gets_are_no_publishers l :
  forallb (fun ev => negb (is_publisher ev)) (map EvGet l) = true.
Proof. induction l; simpl; auto. Qed.

Lemma urls_are_no_publishers (l : list Company) :
  forallb (fun ev => negb (is_publisher ev)) (map (fun c => EvGet (url c)) l) = true.
Proof. induction l; simpl; auto. Qed.

Lemma keep_first_names_NoDup driver companies :
  NoDup (map name companies) -> NoDup (map data_name (records driver companies)).
Proof. intros H. rewrite records_names. apply NoDup_map_filter, H. Qed.

(** X17: a publisher is called only at the end of a run with exit
    status 0: both are then called, the sheet first, with the same
    dataset, which is not empty and names no company twice. *)
Theorem publishers_get_the_scraped_records e all_data :
  In (EvSaveSheets all_data) (snd (main e)) \/
  In (EvCreateExcel all_data) (snd (main e)) ->
  fst (main e) = 0 /\
  all_data <> [] /\
  NoDup (map data_name all_data) /\
  exists tr,
    snd (main e) = tr ++ [EvSaveSheets all_data; EvCreateExcel all_data; EvQuit] /\
    forallb (fun ev => negb (is_publisher ev)) tr = true.
Proof.
  intros Hin.
  destruct (missing e) as [|k ks] eqn:Hmissing.
  2:{ rewrite main_not_started in Hin by (left; rewrite Hmissing; discriminate).
      simpl in Hin; tauto. }
  destruct (setup_selenium e) as [driver|] eqn:Hsetup.
  2:{ rewrite main_not_started in Hin by (right; exact Hsetup). simpl in Hin; tauto. }
  destruct (login_to_screener e) eqn:Hlogin.
  2:{ rewrite (main_login_failed e driver Hmissing Hsetup Hlogin) in Hin.
      simpl in Hin. intuition discriminate. }
  rewrite (main_run e driver Hmissing Hsetup Hlogin) in *. cbv zeta in *.
  set (gets := map EvGet (filter truthy (map snd (WATCHLISTS e)))) in *.
  pose proof (keep_first_NoDup (listed driver (WATCHLISTS e))) as Hnd.
  set (companies := keep_first (listed driver (WATCHLISTS e))) in *.
  assert (Hquiet : forall l, forallb (fun ev => negb (is_publisher ev))
                     (([EvLogin] ++ gets) ++ map (fun c => EvGet (url c)) l) = true).
  { intros l. rewrite !forallb_app. unfold gets.
    rewrite gets_are_no_publishers, urls_are_no_publishers. reflexivity. }
  destruct companies as [|c cs] eqn:Hcs.
  - exfalso. cbn [snd] in Hin.
    assert (Hq : forallb (fun ev => negb (is_publisher ev))
                   (([EvLogin] ++ gets) ++ [EvQuit]) = true).
    { specialize (Hquiet []). cbn [map] in Hquiet. rewrite app_nil_r in Hquiet.
      rewrite forallb_app, Hquiet. reflexivity. }
    rewrite forallb_forall in Hq.
    destruct Hin as [Hin|Hin]; apply Hq in Hin; discriminate.
  - destruct (records driver (c :: cs)) as [|d ds] eqn:Hrec; cbn [fst snd] in *.
    + exfalso.
      assert (Hq : forallb (fun ev => negb (is_publisher ev))
                     ((([EvLogin] ++ gets) ++ map (fun c => EvGet (url c)) (c :: cs))
                        ++ [EvQuit]) = true).
      { rewrite forallb_app, Hquiet. reflexivity. }
      rewrite forallb_forall in Hq.
      destruct Hin as [Hin|Hin]; apply Hq in Hin; discriminate.
    + assert (Hall : all_data = d :: ds).
      { specialize (Hquiet (c :: cs)). rewrite forallb_forall in Hquiet.
        destruct Hin as [Hin|Hin]; apply in_app_or in Hin;
          (destruct Hin as [Hin|Hin]; [apply Hquiet in Hin; discriminate|]);
          simpl in Hin; intuition congruence. }
      subst all_data. split; [reflexivity|]. split; [discriminate|]. split.
      * rewrite <- Hrec. apply keep_first_names_NoDup, Hnd.
      * eexists; split; [reflexivity | apply Hquiet].
Qed.

Lemma publishers_get_the_scraped_records_witness :
  fst (main env_acme) = 0 /\
  records acme_site [acme] <> [] /\
  NoDup (map data_name (records acme_site [acme])) /\
  exists tr,
    snd (main env_acme) =
      tr ++ [EvSaveSheets (records acme_site [acme]);
             EvCreateExcel (records acme_site [acme]); EvQuit] /\
    forallb (fun ev => negb (is_publisher ev)) tr = true.
Proof.
  apply (publishers_get_the_scraped_records env_acme (records acme_site [acme])).
  left. vm_compute. do 3 right. left. reflexivity.
Defined.

Lemma records_nil driver companies :
  records driver companies = [] <->
  forall c, In c companies -> extracted driver c = None.
Proof.
  unfold records. induction companies as [|c cs IH]; simpl; [tauto|]. split.
  - intros H c' [<-|Hin].
    + destruct (extracted driver c); [discriminate | reflexivity].
    + apply IH; [|exact Hin]. destruct (extracted driver c); [discriminate | exact H].
  - intros H. rewrite (H c (or_introl eq_refl)). apply IH. intros c' Hin.
    apply H. right; exact Hin.
Qed.

(** X18: the exit status is 0 or 1.  It is 1 exactly when a required
    variable is missing, the browser cannot be set up, the login fails,
    or the watchlists list companies none of which gives a record. *)
Theorem exit_status_one_cases e :
  (fst (main e) = 0 \/ fst (main e) = 1) /\
  (fst (main e) = 1 <->
   missing e <> [] \/
   setup_selenium e = Raised \/
   login_to_screener e = false \/
   exists driver,
     setup_selenium e = Ok driver /\
     fst (get_all_watchlist_companies driver (WATCHLISTS e) [EvLogin]) <> [] /\
     forall c,
       In c (fst (get_all_watchlist_companies driver (WATCHLISTS e) [EvLogin])) ->
       fst (scrape_company_data driver c []) = None).
Proof.
  destruct (missing e) as [|k ks] eqn:Hmissing.
  2:{ rewrite main_not_started by (left; rewrite Hmissing; discriminate).
      split; [right; reflexivity|]. split; [left; discriminate | reflexivity]. }
  destruct (setup_selenium e) as [driver|] eqn:Hsetup.
  2:{ rewrite main_not_started by (right; exact Hsetup).
      split; [right; reflexivity|]. split; [right; left; reflexivity | reflexivity]. }
  destruct (login_to_screener e) eqn:Hlogin.
  2:{ rewrite (main_login_failed e driver Hmissing Hsetup Hlogin).
      split; [right; reflexivity|]. split; [tauto | reflexivity]. }
  rewrite (main_run e driver Hmissing Hsetup Hlogin). cbv zeta.
  assert (Hlast : (exists driver',
             Ok driver = Ok driver' /\
             fst (get_all_watchlist_companies driver' (WATCHLISTS e) [EvLogin]) <> [] /\
             forall c,
               In c (fst (get_all_watchlist_companies driver' (WATCHLISTS e) [EvLogin])) ->
               fst (scrape_company_data driver' c []) = None) <->
          keep_first (listed driver (WATCHLISTS e)) <> [] /\
          records driver (keep_first (listed driver (WATCHLISTS e))) = []).
  { rewrite records_nil. split.
    - intros (driver' & Hd & Hne & H). injection Hd as <-.
      rewrite get_all_watchlist_companies_run in Hne, H. cbn [fst] in Hne, H.
      split; [exact Hne | exact H].
    - intros [Hne H]. exists driver. rewrite get_all_watchlist_companies_run. cbn [fst].
      split; [reflexivity|]. split; [exact Hne | exact H]. }
  destruct (keep_first (listed driver (WATCHLISTS e))) as [|c cs] eqn:Hcs.
  - split; [left; reflexivity|]. split; [discriminate|].
    intros [H|[H|[H|H]]]; try congruence.
    apply Hlast in H. destruct H as [H _]. congruence.
  - destruct (records driver (c :: cs)) as [|d ds] eqn:Hrec; cbn [fst].
    + split; [right; reflexivity|]. split; [|reflexivity]. intros _.
      right; right; right. apply Hlast. split; [discriminate | reflexivity].
    + split; [left; reflexivity|]. split; [discriminate|].
      intros [H|[H|[H|H]]]; try congruence.
      apply Hlast in H. destruct H as [_ H]. discriminate.
Qed.

(* ================================================================== *)
(** ** The login *)

(** X19: [login_to_screener] reports success only when every step went
    through and the address the browser is at afterwards does not
    contain "login", in whatever letter case. *)
Theorem login_succeeds_only_off_the_login_page s :
  login_to_screener_on s = true ->
  get_login s = Ok tt /\ wait_username s = Ok tt /\
  send_username s = Ok tt /\ send_password s = Ok tt /\
  click_submit s = Ok tt /\
  exists u, current_url s = Ok u /\
    forall a m b, u = (a ++ m ++ b)%string -> lower m <> "login".
Proof.
  unfold login_to_screener_on, rbind.
  destruct (get_login s) as [[]|]; [|discriminate].
  destruct (wait_username s) as [[]|]; [|discriminate].
  destruct (send_username s) as [[]|]; [|discriminate].
  destruct (send_password s) as [[]|]; [|discriminate].
  destruct (click_submit s) as [[]|]; [|discriminate].
  destruct (current_url s) as [u|]; [|discriminate].
  destruct (str_in "login" (lower u)) eqn:Hin; [discriminate|]. intros _.
  repeat (split; [reflexivity|]). exists u. split; [reflexivity|].
  intros a m b -> Hm.
  assert (Hyes : str_in "login" (lower (a ++ m ++ b)%string) = true).
  { rewrite !lower_append, Hm. apply str_in_spec. eauto. }
  congruence.
Qed.

Lemma login_succeeds_only_off_the_login_page_witness :
  exists u, current_url login_to_dashboard = Ok u /\
    forall a m b, u = (a ++ m ++ b)%string -> lower m <> "login".
Proof.
  apply (login_succeeds_only_off_the_login_page login_to_dashboard eq_refl).
Defined.

(* ================================================================== *)
(** ** The sheet *)

Lemma sheet_rows_from rows all_data :
  fold_left (fun rows data => rows ++ [sheet_row data]) all_data rows =
  rows ++ map sheet_row all_data.
Proof.
  revert rows; induction all_data as [|d ds IH]; intros rows; simpl.
  - rewrite app_nil_r. reflexivity.
  - rewrite IH, <- app_assoc. reflexivity.
Qed.

(** X20: the table sent to the sheet is the header row followed by one
    row per record, in dataset order; every row has 6 values, the name
    first and the address last. *)
Theorem sheet_rows_are_rectangular all_data :
  sheet_rows all_data = sheet_headers :: map sheet_row all_data /\
  length (sheet_rows all_data) = length all_data + 1 /\
  Forall (fun row => length row = 6) (sheet_rows all_data) /\
  map (fun row => hd None row) (tl (sheet_rows all_data)) =
    map (fun d => Some (data_name d)) all_data.
Proof.
  assert (H : sheet_rows all_data = sheet_headers :: map sheet_row all_data).
  { unfold sheet_rows. rewrite sheet_rows_from. reflexivity. }
  rewrite H. split; [reflexivity|]. split; [|split].
  - simpl. rewrite length_map. lia.
  - constructor; [reflexivity|]. apply Forall_forall. intros row Hin.
    apply in_map_iff in Hin. destruct Hin as (d & <- & _). reflexivity.
  - simpl. rewrite map_map. reflexivity.
Qed.

(* ================================================================== *)
(** ** Scalar fields, in general *)

(** X23: whatever the page, a scalar field of the record is populated
    exactly when it and every scalar field read before it could be read,
    and then with the text read for it. *)
Theorem scalar_set_iff_read_so_far driver company tr page G :
  driver_get driver (url company) = Ok page ->
  exists data,
    fst (scrape_company_data driver company tr) = Some data /\
    (scalar_of data G <> None <->
     forall F, rank F <= rank G -> exists v, scalar_read page F = Ok v) /\
    (forall v, scalar_of data G = Some v -> scalar_read page G = Ok v).
Proof.
  intros Hget. rewrite scrape_company_data_run, Hget. cbn [fst].
  eexists; split; [reflexivity|].
  rewrite extract_page_scalar, extract_basic_info_scalar.
  assert (Hinit : scalar_of (initial_data company) G = None) by (destruct G; reflexivity).
  rewrite Hinit.
  destruct (forallb _ all_scalars) eqn:Hall.
  - rewrite forallb_forall in Hall.
    assert (Hread : forall F, rank F <= rank G -> exists v, scalar_read page F = Ok v).
    { intros F HF.
      assert (HinF : In F all_scalars) by (destruct F; simpl; tauto).
      specialize (Hall F HinF). apply orb_true_iff in Hall.
      destruct Hall as [Hlt|Hok]; [apply Nat.ltb_lt in Hlt; lia|].
      destruct (scalar_read page F) as [v|]; [eauto | discriminate]. }
    destruct (Hread G (Nat.le_refl _)) as [v Hv]. rewrite Hv. split.
    + split; [intros _; exact Hread | discriminate].
    + intros v' H; injection H as <-. reflexivity.
  - split; [|discriminate]. split; [congruence|]. intros Hread. exfalso.
    apply not_true_iff_false in Hall. apply Hall. apply forallb_forall. intros F _.
    destruct (Nat.ltb_spec (rank G) (rank F)); [reflexivity|].
    destruct (Hread F) as [v ->]; [lia | reflexivity].
Qed.

Lemma scalar_set_iff_read_so_far_witness :
  exists data,
    fst (scrape_company_data (serve page_no_sector) acme []) = Some data /\
    (scalar_of data FPERatio <> None <->
     forall F, rank F <= rank FPERatio -> exists v, scalar_read page_no_sector F = Ok v) /\
    (forall v, scalar_of data FPERatio = Some v ->
       scalar_read page_no_sector FPERatio = Ok v).
Proof.
  apply (scalar_set_iff_read_so_far (serve page_no_sector) acme [] page_no_sector
           FPERatio eq_refl).
Defined.

(* ================================================================== *)
(** ** Required variables *)

(** X24: when one of the four required variables is unset or set to the
    empty text, the run ends with status 1 before the browser is
    started: nothing is logged. *)
Theorem missing_variable_stops_the_run e :
  unset (SCREENER_USERNAME e) = true \/ unset (SCREENER_PASSWORD e) = true \/
  unset (GOOGLE_SHEET_ID e) = true \/ unset (GOOGLE_CREDENTIALS_BASE64 e) = true ->
  main e = (1, []).
Proof.
  intros H. apply main_not_started. left. unfold missing. simpl.
  destruct (unset (SCREENER_USERNAME e)); [discriminate|].
  destruct (unset (SCREENER_PASSWORD e)); [discriminate|].
  destruct (unset (GOOGLE_SHEET_ID e)); [discriminate|].
  destruct (unset (GOOGLE_CREDENTIALS_BASE64 e)); [discriminate|].
  intuition discriminate.
Qed.

Lemma missing_variable_stops_the_run_witness :
  main env_no_password = (1, []).
Proof.
  apply (missing_variable_stops_the_run env_no_password).
  right; left; reflexivity.
Defined.

(* ================================================================== *)
(** ** The workbook *)

Lemma write_spec row col v ws r c :
  write row col v ws r c =
  if (r =? row) && (c =? col)
  then match v with Some _ => v | None => ws r c end
  else ws r c.
Proof.
  unfold write. destruct v; [reflexivity|]. destruct (_ && _); reflexivity.
Qed.

Lemma write_other_row row col v ws r c :
  r <> row -> write row col v ws r c = ws r c.
Proof.
  intros H. rewrite write_spec.
  destruct (Nat.eqb_spec r row); [contradiction | reflexivity].
Qed.

Section RowLoop.

Context {A : Type} (w : nat -> A -> Worksheet -> Worksheet).

(** The body writes into its own row only, and what it leaves in a cell
    depends on that cell only. *)
Hypothesis w_other_row :
  forall row x ws r c, r <> row -> w row x ws r c = ws r c.
Hypothesis w_same_row :
  forall row x ws ws' c, ws row c = ws' row c -> w row x ws row c = w row x ws' row c.

Lemma row_loop_outside start l ws r c :
  r < start \/ start + length l <= r ->
  fold_left (fun ws rd => w (fst rd) (snd rd) ws) (enumerate start l) ws r c = ws r c.
Proof.
  revert start ws; induction l as [|x l IH]; intros start ws H; simpl; [reflexivity|].
  rewrite IH by (simpl in H; lia). apply w_other_row. simpl in H; lia.
Qed.

Lemma row_loop_at start l ws i x c :
  nth_error l i = Some x ->
  fold_left (fun ws rd => w (fst rd) (snd rd) ws) (enumerate start l) ws (start + i) c
  = w (start + i) x ws (start + i) c.
Proof.
  revert start ws i; induction l as [|y l IH]; intros start ws i Hi.
  - destruct i; discriminate.
  - destruct i as [|i]; simpl in *.
    + injection Hi as ->. rewrite Nat.add_0_r.
      apply row_loop_outside. left; lia.
    + replace (start + S i) with (S start + i) by lia.
      rewrite (IH (S start) _ i Hi). apply w_same_row.
      apply w_other_row. lia.
Qed.

End RowLoop.

Lemma raw_data_row_cells_spec row data ws r c :
  raw_data_row_cells row data ws r c =
  if (r =? row) && (1 <=? c) && (c <=? 6)
  then match nth (c - 1) (sheet_row data) None with
       | Some v => Some v
       | None => ws r c
       end
  else ws r c.
Proof.
  unfold raw_data_row_cells. rewrite !write_spec.
  destruct (Nat.eqb_spec r row) as [->|]; simpl; [|reflexivity].
  destruct c as [|[|[|[|[|[|[|c]]]]]]]; simpl; try reflexivity;
    repeat match goal with
           | |- context [match ?o with Some _ => _ | None => _ end] => destruct o
           end; reflexivity.
Qed.

Lemma header_cells_row c :
  header_cells 1 c =
  if (1 <=? c) && (c <=? 6) then Some (nth (c - 1) excel_headers "") else None.
Proof.
  unfold header_cells, excel_headers. cbn [enumerate fold_left fst snd].
  rewrite !write_spec.
  destruct c as [|[|[|[|[|[|[|c]]]]]]]; reflexivity.
Qed.

Lemma header_cells_other_rows r c : r <> 1 -> header_cells r c = None.
Proof.
  intros H. unfold header_cells, excel_headers. cbn [enumerate fold_left fst snd].
  rewrite !write_other_row by exact H. reflexivity.
Qed.

(** The Raw Data cells of checked records. *)
Lemma raw_data_cells_spec all_data :
  (forall c, c < 6 -> raw_data_cells all_data 1 (c + 1) = Some (nth c excel_headers "")) /\
  (forall i data c, nth_error all_data i = Some data -> c < 6 ->
     raw_data_cells all_data (i + 2) (c + 1) = nth c (sheet_row data) None) /\
  (forall r c, length all_data + 1 < r -> raw_data_cells all_data r c = None).
Proof.
  unfold raw_data_cells.
  assert (Hother : forall row x ws r c,
             r <> row -> raw_data_row_cells row x ws r c = ws r c).
  { intros row x ws r c Hr. rewrite raw_data_row_cells_spec.
    destruct (Nat.eqb_spec r row); [contradiction | reflexivity]. }
  assert (Hsame : forall row x ws ws' c,
             ws row c = ws' row c ->
             raw_data_row_cells row x ws row c = raw_data_row_cells row x ws' row c).
  { intros row x ws ws' c Heq. rewrite !raw_data_row_cells_spec, Heq. reflexivity. }
  split; [|split].
  - intros c Hc. rewrite (row_loop_outside _ Hother) by (left; lia).
    rewrite header_cells_row.
    replace (c + 1 - 1) with c by lia.
    destruct (Nat.leb_spec 1 (c + 1)); [|lia].
    destruct (Nat.leb_spec (c + 1) 6); [reflexivity | lia].
  - intros i data c Hi Hc. rewrite Nat.add_comm.
    rewrite (row_loop_at _ Hother Hsame 2 all_data header_cells i data _ Hi).
    rewrite raw_data_row_cells_spec, Nat.eqb_refl.
    replace (c + 1 - 1) with c by lia.
    destruct (Nat.leb_spec 1 (c + 1)); [|lia].
    destruct (Nat.leb_spec (c + 1) 6); [|lia]. cbn [andb].
    destruct (nth c (sheet_row data) None) eqn:E; [reflexivity|].
    apply header_cells_other_rows. lia.
  - intros r c Hr. rewrite (row_loop_outside _ Hother) by (right; lia).
    apply header_cells_other_rows. lia.
Qed.


(** *** From the checked sheets to the sheets the program builds *)

Lemma traverse_Ok {A B} (f : A -> result B) l ys :
  traverse f l = Ok ys ->
  length ys = length l /\
  forall i x, nth_error l i = Some x ->
    exists y, nth_error ys i = Some y /\ f x = Ok y.
Proof.
  revert ys; induction l as [|x l IH]; simpl; intros ys H.
  - injection H as <-. split; [reflexivity|]. intros [|i] x0 Hx; discriminate.
  - destruct (f x) as [y|] eqn:Hy; simpl in H; [|discriminate].
    destruct (traverse f l) as [ys'|]; simpl in H; [|discriminate].
    injection H as <-. destruct (IH ys' eq_refl) as [Hlen Hnth].
    split; [simpl; congruence|].
    intros [|i] x0 Hx; simpl in *.
    + injection Hx as <-. exists y. split; [reflexivity | exact Hy].
    + apply Hnth, Hx.
Qed.

Lemma traverse_Raised {A B} (f : A -> result B) l :
  traverse f l = Raised <-> exists x, In x l /\ f x = Raised.
Proof.
  induction l as [|x l IH]; simpl.
  - split; [discriminate | intros (x & [] & _)].
  - destruct (f x) as [y|] eqn:Hy; simpl.
    + destruct (traverse f l) as [ys|]; simpl.
      * split; [discriminate|]. intros (x0 & [<-|Hin] & Hx0); [congruence|].
        destruct IH as [_ IH]. discriminate IH. exists x0; tauto.
      * split; [|reflexivity]. intros _.
        destruct IH as [IH _]. destruct (IH eq_refl) as (x0 & Hin & Hx0).
        exists x0; tauto.
    + split; [|reflexivity]. intros _. exists x; tauto.
Qed.

Lemma check_string_Ok text v :
  check_string text = Ok v <-> v = take_chars 32767 text /\ ~ refused text.
Proof.
  unfold check_string, refused. destruct (has_illegal (take_chars 32767 text)).
  - split; [discriminate | intros [_ H]; exfalso; apply H; reflexivity].
  - split; [intros H; injection H as <-; split; [reflexivity | discriminate]
           | intros [-> _]; reflexivity].
Qed.

Lemma check_string_Raised text : check_string text = Raised <-> refused text.
Proof.
  unfold check_string, refused. destruct (has_illegal (take_chars 32767 text));
    split; (reflexivity || discriminate).
Qed.

Lemma check_value_Ok v v' :
  check_value v = Ok v' -> v' = option_map (take_chars 32767) v.
Proof.
  destruct v as [text|]; simpl; [|intros H; injection H as <-; reflexivity].
  destruct (check_string text) as [t|] eqn:E; simpl; [|discriminate].
  intros H; injection H as <-. apply check_string_Ok in E. destruct E as [-> _].
  reflexivity.
Qed.

Lemma check_value_Raised v :
  check_value v = Raised <-> exists text, v = Some text /\ refused text.
Proof.
  destruct v as [text|]; simpl.
  - destruct (check_string text) as [t|] eqn:E; simpl.
    + split; [discriminate|]. intros (t' & Ht & Hr). injection Ht as <-.
      apply check_string_Raised in Hr. congruence.
    + split; [|reflexivity]. intros _. exists text. split; [reflexivity|].
      apply check_string_Raised, E.
  - split; [discriminate | intros (t & H & _); discriminate].
Qed.

(** The six calls for a record check its six texts, then write them. *)
Lemma raw_data_row_checked row data ws :
  raw_data_row row data ws =
  (d <- checked_record data ;; Ok (raw_data_row_cells row d ws))%result.
Proof.
  unfold raw_data_row, checked_record, cell, raw_data_row_cells. simpl.
  destruct (check_string (data_name data)); simpl; [|reflexivity].
  destruct (check_value (sector data)); simpl; [|reflexivity].
  destruct (check_value (current_price data)); simpl; [|reflexivity].
  destruct (check_value (market_cap data)); simpl; [|reflexivity].
  destruct (check_value (pe_ratio data)); simpl; [|reflexivity].
  destruct (check_string (data_url data)); reflexivity.
Qed.

Lemma raw_data_loop_checked start all_data ws :
  for_each_r (enumerate start all_data)
    (fun rd ws => raw_data_row (fst rd) (snd rd) ws) ws =
  (ds <- traverse checked_record all_data ;;
   Ok (fold_left (fun ws rd => raw_data_row_cells (fst rd) (snd rd) ws)
         (enumerate start ds) ws))%result.
Proof.
  revert start ws; induction all_data as [|d l IH]; intros start ws; simpl.
  - reflexivity.
  - rewrite raw_data_row_checked.
    destruct (checked_record d) as [d'|]; simpl; [|reflexivity].
    rewrite IH. destruct (traverse checked_record l); reflexivity.
Qed.

Lemma raw_data_sheet_checked all_data :
  raw_data_sheet all_data =
  (ds <- traverse checked_record all_data ;; Ok (raw_data_cells ds))%result.
Proof.
  unfold raw_data_sheet.
  change (for_each_r (enumerate 1 excel_headers)
            (fun ch ws => cell 1 (fst ch) (Some (snd ch)) ws) empty_sheet)
    with (Ok header_cells).
  apply raw_data_loop_checked.
Qed.



Lemma checked_record_Ok data d :
  checked_record data = Ok d ->
  sheet_row d = map (option_map (take_chars 32767)) (sheet_row data).
Proof.
  unfold checked_record, sheet_row, rbind.
  destruct (check_string (data_name data)) as [n|] eqn:En; [|discriminate].
  destruct (check_value (sector data)) as [s|] eqn:Es; [|discriminate].
  destruct (check_value (current_price data)) as [p|] eqn:Ep; [|discriminate].
  destruct (check_value (market_cap data)) as [m|] eqn:Em; [|discriminate].
  destruct (check_value (pe_ratio data)) as [e|] eqn:Ee; [|discriminate].
  destruct (check_string (data_url data)) as [u|] eqn:Eu; [|discriminate].
  intros H; injection H as <-. simpl.
  apply check_string_Ok in En, Eu. destruct En as [-> _], Eu as [-> _].
  rewrite (check_value_Ok _ _ Es), (check_value_Ok _ _ Ep),
    (check_value_Ok _ _ Em), (check_value_Ok _ _ Ee). reflexivity.
Qed.

Lemma checked_record_Raised data :
  checked_record data = Raised <->
  exists text, In (Some text) (sheet_row data) /\ refused text.
Proof.
  unfold checked_record, sheet_row, rbind. split.
  - destruct (check_string (data_name data)) as [n|] eqn:En.
    2:{ intros _. exists (data_name data). split; [simpl; tauto|].
        apply check_string_Raised, En. }
    destruct (check_value (sector data)) as [s|] eqn:Es.
    2:{ intros _. apply check_value_Raised in Es. destruct Es as (t & Ht & Hr).
        exists t. split; [rewrite <- Ht; simpl; tauto | exact Hr]. }
    destruct (check_value (current_price data)) as [p|] eqn:Ep.
    2:{ intros _. apply check_value_Raised in Ep. destruct Ep as (t & Ht & Hr).
        exists t. split; [rewrite <- Ht; simpl; tauto | exact Hr]. }
    destruct (check_value (market_cap data)) as [m|] eqn:Em.
    2:{ intros _. apply check_value_Raised in Em. destruct Em as (t & Ht & Hr).
        exists t. split; [rewrite <- Ht; simpl; tauto | exact Hr]. }
    destruct (check_value (pe_ratio data)) as [e|] eqn:Ee.
    2:{ intros _. apply check_value_Raised in Ee. destruct Ee as (t & Ht & Hr).
        exists t. split; [rewrite <- Ht; simpl; tauto | exact Hr]. }
    destruct (check_string (data_url data)) as [u|] eqn:Eu; [discriminate|].
    intros _. exists (data_url data). split; [simpl; tauto|].
    apply check_string_Raised, Eu.
  - intros (t & Hin & Hr).
    assert (Hs : check_string t = Raised) by (apply check_string_Raised, Hr).
    assert (Hv : check_value (Some t) = Raised) by (simpl; rewrite Hs; reflexivity).
    simpl in Hin.
    destruct Hin as [H|[H|[H|[H|[H|[H|[]]]]]]].
    + injection H as H. rewrite H, Hs. reflexivity.
    + rewrite H, Hv. destruct (check_string (data_name data)); reflexivity.
    + rewrite H, Hv. destruct (check_string (data_name data)); [|reflexivity].
      destruct (check_value (sector data)); reflexivity.
    + rewrite H, Hv. destruct (check_string (data_name data)); [|reflexivity].
      destruct (check_value (sector data)); [|reflexivity].
      destruct (check_value (current_price data)); reflexivity.
    + rewrite H, Hv. destruct (check_string (data_name data)); [|reflexivity].
      destruct (check_value (sector data)); [|reflexivity].
      destruct (check_value (current_price data)); [|reflexivity].
      destruct (check_value (market_cap data)); reflexivity.
    + injection H as H. rewrite H, Hs.
      destruct (check_string (data_name data)); [|reflexivity].
      destruct (check_value (sector data)); [|reflexivity].
      destruct (check_value (current_price data)); [|reflexivity].
      destruct (check_value (market_cap data)); [|reflexivity].
      destruct (check_value (pe_ratio data)); reflexivity.
Qed.

(** A text of at most [n] characters is not cut. *)
Lemma take_chars_all n text :
  (char_length text <= n)%N -> take_chars n text = text.
Proof.
  revert n; induction text as [|c text IH]; intros n H; simpl in *; [reflexivity|].
  destruct (is_continuation c).
  - rewrite (IH n H). reflexivity.
  - destruct (N.eqb_spec n 0) as [->|Hn]; [lia|].
    rewrite IH by lia. reflexivity.
Qed.

(** X21: openpyxl cuts the text of a cell at 32767 characters and
    refuses a text with an illegal control character.  The Raw Data sheet
    cannot be built (and [create_excel_dashboard] returns [None]) exactly
    when a text of some record is refused.  When it is built, row 1 has
    the six headers, row [i + 2] has the record at position [i] of the
    dataset, column by column the values of its sheet row, each cut at
    32767 characters (a field that is absent leaves its cell empty), and
    the rows below the last record are empty.  A text of at most 32767
    characters is stored as it is. *)
Theorem raw_data_sheet_holds_the_records all_data :
  (raw_data_sheet all_data = Raised <->
   exists data text,
     In data all_data /\ In (Some text) (sheet_row data) /\ refused text) /\
  (forall ws, raw_data_sheet all_data = Ok ws ->
     (forall c, c < 6 -> ws 1 (c + 1) = Some (nth c excel_headers "")) /\
     (forall i data c, nth_error all_data i = Some data -> c < 6 ->
        ws (i + 2) (c + 1) =
        option_map (take_chars 32767) (nth c (sheet_row data) None)) /\
     (forall r c, length all_data + 1 < r -> ws r c = None)) /\
  (forall text, (char_length text <= 32767)%N -> take_chars 32767 text = text).
Proof.
  rewrite raw_data_sheet_checked. split; [|split].
  - destruct (traverse checked_record all_data) as [ds|] eqn:E; simpl.
    + split; [discriminate|]. intros (data & text & Hin & Htext & Href). exfalso.
      assert (Hr : traverse checked_record all_data = Raised).
      { apply traverse_Raised. exists data. split; [exact Hin|].
        apply checked_record_Raised. exists text. split; assumption. }
      congruence.
    + split; [|reflexivity]. intros _.
      apply traverse_Raised in E. destruct E as (data & Hin & Hdata).
      apply checked_record_Raised in Hdata. destruct Hdata as (text & Htext & Href).
      exists data, text. repeat split; assumption.
  - intros ws. destruct (traverse checked_record all_data) as [ds|] eqn:E; simpl;
      [|discriminate].
    intros H; injection H as <-.
    destruct (traverse_Ok _ _ _ E) as [Hlen Hnth].
    destruct (raw_data_cells_spec ds) as (Hhead & Hrows & Hbelow).
    split; [exact Hhead|]. split.
    + intros i data c Hi Hc. destruct (Hnth i data Hi) as (d & Hd & Hchecked).
      rewrite (Hrows i d c Hd Hc), (checked_record_Ok _ _ Hchecked).
      change None with (option_map (take_chars 32767) None) at 1.
      apply map_nth.
    + intros r c Hr. apply Hbelow. lia.
  - intros text. apply take_chars_all.
Qed.


(** On an empty dataset the range of the validation runs backwards and
    the dropdown is preset to the empty text. *)
Example workbook_of_empty_dataset :
  validation_formula1 [] = "='Company List'!$A$2:$A$1" /\
  dropdown_value [] = Ok "".
Proof. split; reflexivity. Qed.

(** A record whose name has a control character stops the workbook; a
    dataset without such texts gives the sheet with its values. *)
Example workbook_refuses_control_characters :
  refused (data_name record_with_bell) /\
  raw_data_sheet [initial_data acme; record_with_bell] = Raised /\
  company_list_sheet [initial_data acme; record_with_bell] = Raised /\
  option_map (fun ws => (ws 2 1, ws 2 2, ws 2 6))
    (match raw_data_sheet [initial_data acme] with
     | Ok ws => Some ws
     | Raised => None
     end) =
  Some (Some "Acme", None, Some "https://www.screener.in/company/ACME/").
Proof. repeat split; reflexivity. Qed.
